(** * Tech Buddy: the [/api/chat] handler of [src/server/server.js]

    The Express handler registered by [app.post('/api/chat', ...)] is the
    only decision logic of the server.  It is embedded here as a program in
    a small monad whose state holds the Express response object [res] and
    the outbound [fetch] calls made so far, and whose completions are those
    of JavaScript: normal, [return] and [throw].

    Conventions of the embedding.
    - [req.body] is the object produced by [express.json()]; the handler
      reads exactly three of its properties (line 21), kept here as a
      record of three JavaScript values, [JUndefined] when absent.
    - The two remote services are the environment: a [network] answers each
      [fetch] call with a settled promise.
    - Strings are byte strings holding UTF-8; a number is kept as what
      the handler can observe of it; an object is the association list of
      its own properties.
    - A [network] answers every call: a call that never settles is not
      represented, so what is proved holds of the runs in which the calls
      made settle.
    - The dynamic [import('node-fetch')] of line 19 is taken to succeed.
    - [console.log] and [console.error] write to the process output only
      and are left out.

    The guard of the user interface, [handleSendMessage] in
    [src/client/src/App.js], is embedded as far as the request it posts;
    module [App] further down embeds the chat page's handlers in full, and
    [received] and [carries] tie the page's request to the handler and the
    handler's reply to the page. *)

From Stdlib Require Import String Ascii List Bool Arith NArith Lia DecimalString.
Import ListNotations.
Local Open Scope string_scope.
Set Warnings "-register-all".

(** ** JavaScript values, as [JSON.parse] builds them *)

Module JS.

(** A JavaScript number as far as this program can observe it: the handler
    only ever tests a number for truthiness or renders it with ToString. *)
Record number := { num_falsy : bool; num_text : string }.

Inductive value :=
| JUndefined
| JNull
| JBool (b : bool)
| JNum (n : number)
| JStr (s : string)
| JArr (xs : list value)
| JObj (fields : list (string * value)).

(** An object is the list of its own properties; a key is looked up at its
    first occurrence. *)
Fixpoint own (fields : list (string * value)) (k : string) : option value :=
  match fields with
  | [] => None
  | (k', v) :: rest => if String.eqb k' k then Some v else own rest k
  end.

(** ToBoolean: [undefined], [null], [false], [0], [NaN] and the empty
    string are falsy, everything else (arrays and objects included) is
    truthy. *)
Definition truthy (v : value) : bool :=
  match v with
  | JUndefined | JNull => false
  | JBool b => b
  | JNum n => negb (num_falsy n)
  | JStr s => negb (String.eqb s "")
  | JArr _ | JObj _ => true
  end.

Definition nullish (v : value) : bool :=
  match v with
  | JUndefined | JNull => true
  | _ => false
  end.

Definition decimal (i : nat) : string := NilZero.string_of_uint (Nat.to_uint i).

Definition of_nat (i : nat) : value :=
  JNum {| num_falsy := Nat.eqb i 0; num_text := decimal i |}.

(** The element of an array stored under property key [k]: the element at
    index [i] lives under the canonical decimal string of [i]. *)
Fixpoint element (xs : list value) (i : nat) (k : string) : value :=
  match xs with
  | [] => JUndefined
  | x :: rest => if String.eqb (decimal i) k then x else element rest (S i) k
  end.

Fixpoint char_at (s : string) (i : nat) (k : string) : value :=
  match s with
  | EmptyString => JUndefined
  | String c rest =>
      if String.eqb (decimal i) k then JStr (String c EmptyString)
      else char_at rest (S i) k
  end.

(** [v[k]] for a [v] that is neither [undefined] nor [null].  Only data
    properties are modelled; the inherited methods of the built-in
    prototypes are functions, which no JSON value is, and the handler reads
    none of them. *)
Definition prop (v : value) (k : string) : value :=
  match v with
  | JObj fields => match own fields k with Some x => x | None => JUndefined end
  | JArr xs => if String.eqb k "length" then of_nat (List.length xs) else element xs 0 k
  | JStr s => if String.eqb k "length" then of_nat (String.length s) else char_at s 0 k
  | _ => JUndefined
  end.

(** Optional chaining [v?.k]. *)
Definition opt (v : value) (k : string) : value :=
  if nullish v then JUndefined else prop v k.

(** ToString.  [None] stands for the TypeError raised when an object cannot
    be converted to a primitive: a parsed object that has an own property
    named [toString] shadows [Object.prototype.toString] with something
    that is not callable, and [valueOf] gives back the object itself. *)
Fixpoint ToString (v : value) : option string :=
  match v with
  | JUndefined => Some "undefined"
  | JNull => Some "null"
  | JBool b => Some (if b then "true" else "false")
  | JNum n => Some (num_text n)
  | JStr s => Some s
  | JArr xs =>
      (* Array.prototype.join with the separator "," *)
      let fix items (l : list value) : option (list string) :=
        match l with
        | [] => Some []
        | x :: rest =>
            match (if nullish x then Some "" else ToString x), items rest with
            | Some s, Some ss => Some (s :: ss)
            | _, _ => None
            end
        end in
      option_map (String.concat ",") (items xs)
  | JObj fields =>
      match own fields "toString" with
      | Some _ => None
      | None => Some "[object Object]"
      end
  end.

(** Strings hold text as UTF-8, the way the literals of this file do.
    [characters] splits a string into its characters, each with its code
    point and its bytes; a byte that is not part of a well-formed sequence
    counts as the character of that code. *)
Definition continuation (c : ascii) : bool :=
  ((128 <=? N_of_ascii c) && (N_of_ascii c <=? 191))%N.

Fixpoint characters (s : string) : list (N * string) :=
  match s with
  | EmptyString => []
  | String a r1 =>
      let x := N_of_ascii a in
      let stray := (x, String a EmptyString) :: characters r1 in
      match r1 with
      | EmptyString => stray
      | String b r2 =>
          let y := N_of_ascii b in
          if ((194 <=? x) && (x <=? 223))%N && continuation b
          then (((x - 192) * 64 + (y - 128))%N, String a (String b EmptyString))
                 :: characters r2
          else
            match r2 with
            | EmptyString => stray
            | String c r3 =>
                let z := N_of_ascii c in
                let three := ((x - 224) * 4096 + (y - 128) * 64 + (z - 128))%N in
                if ((224 <=? x) && (x <=? 239))%N && continuation b && continuation c
                   && ((2048 <=? three) && negb ((55296 <=? three) && (three <=? 57343)))%N
                then (three, String a (String b (String c EmptyString))) :: characters r3
                else
                  match r3 with
                  | EmptyString => stray
                  | String d r4 =>
                      let w := N_of_ascii d in
                      let four := ((x - 240) * 262144 + (y - 128) * 4096
                                   + (z - 128) * 64 + (w - 128))%N in
                      if ((240 <=? x) && (x <=? 244))%N
                         && continuation b && continuation c && continuation d
                         && ((65536 <=? four) && (four <=? 1114111))%N
                      then (four, String a (String b (String c (String d EmptyString))))
                             :: characters r4
                      else stray
                  end
            end
      end
  end.

(** The white space and line terminators [String.prototype.trim] strips:
    TAB, LF, VT, FF, CR, SPACE, U+00A0, U+1680, U+2000 to U+200A, U+2028,
    U+2029, U+202F, U+205F, U+3000 and U+FEFF. *)
Definition white_space (cp : N) : bool :=
  ((9 <=? cp) && (cp <=? 13) || (cp =? 32) || (cp =? 160) || (cp =? 5760)
   || (8192 <=? cp) && (cp <=? 8202) || (cp =? 8232) || (cp =? 8233)
   || (cp =? 8239) || (cp =? 8287) || (cp =? 12288) || (cp =? 65279))%N.

Fixpoint skip_white_space (l : list (N * string)) : list (N * string) :=
  match l with
  | [] => []
  | (cp, _) :: rest => if white_space cp then skip_white_space rest else l
  end.

Definition text_of (l : list (N * string)) : string :=
  String.concat "" (map snd l).

Definition trimStart (s : string) : string :=
  text_of (skip_white_space (characters s)).

Definition trimEnd (s : string) : string :=
  text_of (rev (skip_white_space (rev (characters s)))).

(** [String.prototype.trim] *)
Definition trim (s : string) : string :=
  text_of (rev (skip_white_space (rev (skip_white_space (characters s))))).

(** [hay.includes(needle)] *)
Fixpoint includes (hay needle : string) : bool :=
  String.prefix needle hay ||
  match hay with
  | EmptyString => false
  | String _ rest => includes rest needle
  end.

End JS.
Import JS.

(** ** Exceptions, promises and the two remote services *)

(** A thrown error object: its [message] and, for system errors such as the
    ones [fetch] rejects with, its string [code]. *)
Record exn := { code : option string; message : string }.

Definition new_Error (msg : string) : exn := {| code := None; message := msg |}.

(** [e.code === s] *)
Definition code_is (e : exn) (s : string) : bool :=
  match code e with
  | Some c => String.eqb c s
  | None => false
  end.

(** The errors the engine itself raises, in the wording of current V8. *)
Definition TypeError_read (v : value) (k : string) : exn :=
  new_Error ("Cannot read properties of "
             ++ (match v with JNull => "null" | _ => "undefined" end)
             ++ " (reading '" ++ k ++ "')").

Definition TypeError_primitive : exn :=
  new_Error "Cannot convert object to primitive value".

Inductive settled (A : Type) :=
| Fulfilled (a : A)
| Rejected (e : exn).
Arguments Fulfilled {A} a.
Arguments Rejected {A} e.

(** The text [JSON.stringify] produces, kept as the value it was produced
    from. *)
Inductive json_text := JSON_stringify (v : value).

Record fetch_init := {
  method : string;
  headers : list (string * string);
  body : json_text
}.

(** What [fetch] resolves to.  [json] is the result of awaiting
    [response.json()], which the handler does at most once. *)
Record response := {
  status : nat;
  statusText : string;
  json : settled value
}.

Definition ok (r : response) : bool := ((200 <=? status r) && (status r <? 300))%nat.

Definition network := string -> fetch_init -> settled response.

(** ** The handler monad *)

(** Express's [res]: the status code (200 until [res.status] changes it)
    and the body handed to [res.json], if any. *)
Record res_object := { statusCode : nat; sent : option value }.

Record world := {
  res : res_object;
  outbox : list (string * fetch_init)   (* fetch calls made, oldest first *)
}.

Definition initial : world :=
  {| res := {| statusCode := 200; sent := None |}; outbox := [] |}.

Inductive completion (A : Type) :=
| Normal (a : A)
| Return                (* a [return] statement; Express ignores the value *)
| Throw (e : exn).
Arguments Normal {A} a.
Arguments Return {A}.
Arguments Throw {A} e.

Definition M (A : Type) : Type := network -> world -> completion A * world.

Definition ret {A} (a : A) : M A := fun _ w => (Normal a, w).

Definition bind {A B} (m : M A) (k : A -> M B) : M B :=
  fun net w =>
    match m net w with
    | (Normal a, w') => k a net w'
    | (Return, w') => (Return, w')
    | (Throw e, w') => (Throw e, w')
    end.

Definition throw {A} (e : exn) : M A := fun _ w => (Throw e, w).

Definition return_ {A} : M A := fun _ w => (Return, w).

Definition try_catch {A} (block : M A) (handler : exn -> M A) : M A :=
  fun net w =>
    match block net w with
    | (Throw e, w') => handler e net w'
    | done => done
    end.

Declare Scope js_scope.
Delimit Scope js_scope with js.
Notation "x <- m ;; k" := (bind m (fun x => k))
  (at level 61, m at next level, right associativity) : js_scope.
Notation "m ;; k" := (bind m (fun _ => k))
  (at level 61, right associativity) : js_scope.
Local Open Scope js_scope.

Definition await {A} (p : settled A) : M A :=
  match p with
  | Fulfilled a => ret a
  | Rejected e => throw e
  end.

Definition fetch (url : string) (init : fetch_init) : M response :=
  fun net w =>
    let w' := {| res := res w; outbox := (outbox w ++ [(url, init)])%list |} in
    await (net url init) net w'.

Definition res_status (c : nat) : M unit :=
  fun _ w =>
    (Normal tt, {| res := {| statusCode := c; sent := sent (res w) |};
                   outbox := outbox w |}).

Definition res_json (b : value) : M unit :=
  fun _ w =>
    (Normal tt, {| res := {| statusCode := statusCode (res w); sent := Some b |};
                   outbox := outbox w |}).

(** [v.k]: a TypeError when [v] is [undefined] or [null]. *)
Definition member (v : value) (k : string) : M value :=
  if nullish v then throw (TypeError_read v k) else ret (prop v k).

(** A template-literal substitution [${v}]. *)
Definition to_string (v : value) : M string :=
  match ToString v with
  | Some s => ret s
  | None => throw TypeError_primitive
  end.

(** [a || b] *)
Definition or (a b : value) : value := if truthy a then a else b.

(** ** [app.post('/api/chat', ...)] *)

Record request_body := { prompt : value; useLocal : value; apiKey : value }.

Definition ollamaUrl : string := "http://localhost:11434/api/generate".

Definition ollamaPayload (prompt : value) : value :=
  JObj [("model", JStr "gemma3:12b-it-qat");
        ("prompt", prompt);
        ("stream", JBool false)].

Definition post_json (payload : value) : fetch_init :=
  {| method := "POST";
     headers := [("Content-Type", "application/json")];
     body := JSON_stringify payload |}.

(** Lines 31-65: the local model, served by Ollama. *)
Definition local_llm (prompt : value) : M value :=
  try_catch
    (ollamaRes <- fetch ollamaUrl (post_json (ollamaPayload prompt)) ;;
     (if negb (ok ollamaRes)
      then throw (new_Error ("Ollama server returned an error: " ++ statusText ollamaRes))
      else ret tt) ;;
     ollamaData <- await (json ollamaRes) ;;
     member ollamaData "response")
    (fun e =>
       (if code_is e "ECONNREFUSED"
        then throw (new_Error "Could not connect to the local Ollama server. Please ensure it is running on http://localhost:11434.")
        else ret tt) ;;
       throw e).

Definition geminiPayload (prompt : value) : value :=
  let chatHistory :=
    JArr [JObj [("role", JStr "user"); ("parts", JArr [JObj [("text", prompt)]])]] in
  JObj [("contents", chatHistory)].

Definition geminiApiUrl (key : string) : string :=
  "https://generativelanguage.googleapis.com/v1beta/models/gemini-2.0-flash:generateContent?key=" ++ key.

(** [candidates?.[0]?.content?.parts?.[0]?.text] *)
Definition first_part_text (candidates : value) : value :=
  opt (opt (opt (opt (opt candidates "0") "content") "parts") "0") "text".

(** Lines 68-95: the cloud model, Google's Gemini API. *)
Definition cloud_llm (prompt apiKey : value) : M value :=
  (if negb (truthy apiKey)
   then res_status 400 ;;
        res_json (JObj [("message", JStr "API Key is required for Cloud model.")]) ;;
        return_
   else ret tt) ;;
  key <- to_string apiKey ;;
  geminiResponse <- fetch (geminiApiUrl key) (post_json (geminiPayload prompt)) ;;
  (if negb (ok geminiResponse)
   then errorData <- await (json geminiResponse) ;;
        error <- member errorData "error" ;;
        msg <- to_string (or (opt error "message") (JStr "Gemini API request failed")) ;;
        throw (new_Error msg)
   else ret tt) ;;
  geminiResult <- await (json geminiResponse) ;;
  candidates <- member geminiResult "candidates" ;;
  if truthy (first_part_text candidates)
  then candidates <- member geminiResult "candidates" ;;
       first <- member candidates "0" ;;
       content <- member first "content" ;;
       parts <- member content "parts" ;;
       part <- member parts "0" ;;
       member part "text"
  else throw (new_Error "No content found in Gemini API response.").

(** Lines 30-96: the backend is chosen by the truthiness of [useLocal]. *)
Definition llm (req : request_body) : M value :=
  if truthy (useLocal req)
  then local_llm (prompt req)
  else cloud_llm (prompt req) (apiKey req).

(** Lines 17-104. *)
Definition api_chat (req : request_body) : M unit :=
  (if negb (truthy (prompt req))
   then res_status 400 ;;
        res_json (JObj [("message", JStr "Prompt is required.")]) ;;
        return_
   else ret tt) ;;
  try_catch
    (llmResponseText <- llm req ;;
     res_json (JObj [("response", llmResponseText)]))
    (fun error =>
       res_status 500 ;;
       res_json (JObj [("message", JStr ("Internal server error: " ++ message error))])).

(** One request served against a network: how the handler completed, what
    the caller was sent and which outbound calls were made. *)
Definition serve (net : network) (req : request_body) : completion unit * world :=
  api_chat req net initial.

Definition reply (net : network) (req : request_body) : res_object :=
  res (snd (serve net req)).

Definition calls (net : network) (req : request_body) : list (string * fetch_init) :=
  outbox (snd (serve net req)).

Definition json_reply (c : nat) (b : value) : res_object :=
  {| statusCode := c; sent := Some b |}.

Definition failure (c : nat) (msg : string) : res_object :=
  json_reply c (JObj [("message", JStr msg)]).

Definition success (text : value) : res_object :=
  json_reply 200 (JObj [("response", text)]).

(** ** The client's side of the contract *)

(** [handleSendMessage] of [src/client/src/App.js] (lines 28-55), as far
    as the request it posts; [None] when it returns without posting. *)
Definition handleSendMessage (inputText : string) (local : bool) (key : string)
  : option request_body :=
  if String.eqb (trim inputText) "" then None
  else if negb local && negb (truthy (JStr key)) then None
  else Some {| prompt := JStr inputText;
               useLocal := JBool local;
               apiKey := if local then JUndefined else JStr key |}.

(** ** Sample requests and services used in the examples below *)

Definition ask (p l k : value) : request_body :=
  {| prompt := p; useLocal := l; apiKey := k |}.

(** A service that answers every call with the given status and JSON body. *)
Definition answering (st : nat) (text : string) (d : value) : network :=
  fun _ _ => Fulfilled {| status := st; statusText := text; json := Fulfilled d |}.

(** A body the Gemini API answers with: one candidate with one part. *)
Definition gemini_says (t : string) : value :=
  JObj [("candidates",
         JArr [JObj [("content", JObj [("parts", JArr [JObj [("text", JStr t)]])])]])].

(** A no-break space, U+00A0. *)
Definition nbsp : string := String (ascii_of_nat 194) (String (ascii_of_nat 160) "").

(** A service nobody listens on. *)
Definition refusing : network :=
  fun _ _ =>
    Rejected {| code := Some "ECONNREFUSED";
                message := "request to http://localhost:11434/api/generate failed, reason: connect ECONNREFUSED 127.0.0.1:11434" |}.

Definition refused_message : string :=
  "Could not connect to the local Ollama server. Please ensure it is running on http://localhost:11434.".

(** What the dispatcher makes of the outcome of the backend call
    (line 98 and lines 100-103). *)
Definition settle (o : completion value * world) : completion unit * world :=
  match o with
  | (Normal text, w) =>
      (Normal tt, {| res := {| statusCode := statusCode (res w);
                               sent := Some (JObj [("response", text)]) |};
                     outbox := outbox w |})
  | (Return, w) => (Return, w)
  | (Throw e, w) =>
      (Normal tt, {| res := failure 500 ("Internal server error: " ++ message e);
                     outbox := outbox w |})
  end.

(** A request that passes the prompt check and takes the local branch. *)
Definition routed_local (req : request_body) : Prop :=
  truthy (prompt req) = true /\ truthy (useLocal req) = true.

(** A request that passes both checks and takes the cloud branch, [key]
    being the text of its credential in the request URL. *)
Definition routed_cloud (req : request_body) (key : string) : Prop :=
  truthy (prompt req) = true /\ truthy (useLocal req) = false /\
  truthy (apiKey req) = true /\ ToString (apiKey req) = Some key.

(** The world after one outbound call and nothing else. *)
Definition called (url : string) (init : fetch_init) : world :=
  {| res := res initial; outbox := [(url, init)] |}.

(** ** From the browser to the handler and back *)

(** [JSON.parse(JSON.stringify(v))] for a [v] that is not [undefined]
    itself: a property whose value is [undefined] is left out, an
    [undefined] array element becomes [null], and so does a number that is
    not finite, wherever it stands. *)
Fixpoint revive (v : value) : value :=
  match v with
  | JArr xs =>
      JArr (map (fun x => match x with JUndefined => JNull | _ => revive x end) xs)
  | JObj fields =>
      let fix members (l : list (string * value)) : list (string * value) :=
        match l with
        | [] => []
        | (k, JUndefined) :: rest => members rest
        | (k, x) :: rest => (k, revive x) :: members rest
        end in
      JObj (members fields)
  | JNum n =>
      (* a number that is not finite is written as null *)
      if String.eqb (num_text n) "Infinity" || String.eqb (num_text n) "-Infinity"
         || String.eqb (num_text n) "NaN"
      then JNull else v
  | _ => v
  end.

Definition JSON_parse (t : json_text) : value :=
  match t with JSON_stringify v => revive v end.

(** Line 21 of [server.js], on the body [express.json()] has parsed. *)
Definition destructure (parsed : value) : request_body :=
  {| prompt := prop parsed "prompt";
     useLocal := prop parsed "useLocal";
     apiKey := prop parsed "apiKey" |}.

(** The request the handler sees when the browser posts [init]. *)
Definition received (init : fetch_init) : request_body :=
  destructure (JSON_parse (body init)).

(** The HTTP response [r] is what the browser gets when the handler has
    sent [rep] with [res.json]. *)
Definition carries (r : response) (rep : res_object) : Prop :=
  status r = statusCode rep /\
  exists b, sent rep = Some b /\ json r = Fulfilled (JSON_parse (JSON_stringify b)).

(** ** The chat page, [src/client/src/App.js] *)

Module App.

Record chat_message := { type : string; text : value }.

(** The component's state (lines 6-18). *)
Record state := {
  messages : list chat_message;
  inputText : string;
  apiKey : string;
  isLoading : bool;
  error : string;
  showSettings : bool;
  useLocal : bool
}.

Definition mounted : state :=
  {| messages := []; inputText := ""; apiKey := ""; isLoading := false;
     error := ""; showSettings := false; useLocal := true |}.

(** The page while a handler runs: the state the next render will show,
    the [fetch] calls made so far, and the exception a state updater has
    thrown, if any.  React runs an updater while it renders, outside the
    handler that queued it: an exception it throws is not seen by the
    handler, and the component is taken off the screen.  A handler reads
    the state of the render it was created in, passed to it as an argument,
    and no other handler runs before it completes. *)
Record page := {
  ui : state;
  posted : list (string * fetch_init);
  broken : option exn
}.

Definition showing (s : state) : page := {| ui := s; posted := []; broken := None |}.

Definition C (A : Type) : Type := network -> page -> completion A * page.

Definition ret {A} (a : A) : C A := fun _ p => (Normal a, p).

Definition bind {A B} (m : C A) (k : A -> C B) : C B :=
  fun net p =>
    match m net p with
    | (Normal a, p') => k a net p'
    | (Return, p') => (Return, p')
    | (Throw e, p') => (Throw e, p')
    end.

Definition throw {A} (e : exn) : C A := fun _ p => (Throw e, p).

Definition return_ {A} : C A := fun _ p => (Return, p).

(** [try { block } catch (err) { handler } finally { finalizer }] *)
Definition try_catch_finally {A} (block : C A) (handler : exn -> C A)
    (finalizer : C unit) : C A :=
  fun net p =>
    let (c, p1) := match block net p with
                   | (Throw e, p') => handler e net p'
                   | done => done
                   end in
    match finalizer net p1 with
    | (Normal _, p2) => (c, p2)
    | (Return, p2) => (Return, p2)
    | (Throw e, p2) => (Throw e, p2)
    end.

Declare Scope app_scope.
Delimit Scope app_scope with app.
Notation "x <- m ;; k" := (bind m (fun x => k))
  (at level 61, m at next level, right associativity) : app_scope.
Notation "m ;; k" := (bind m (fun _ => k))
  (at level 61, right associativity) : app_scope.
Local Open Scope app_scope.

Definition await {A} (p : settled A) : C A :=
  match p with
  | Fulfilled a => ret a
  | Rejected e => throw e
  end.

Definition fetch (url : string) (init : fetch_init) : C response :=
  fun net p =>
    await (net url init) net
      {| ui := ui p; posted := (posted p ++ [(url, init)])%list; broken := broken p |}.

Definition member (v : value) (k : string) : C value :=
  if nullish v then throw (TypeError_read v k) else ret (prop v k).

Definition to_string (v : value) : C string :=
  match ToString v with
  | Some s => ret s
  | None => throw TypeError_primitive
  end.

Definition update (f : state -> state) : C unit :=
  fun _ p => (Normal tt, {| ui := f (ui p); posted := posted p; broken := broken p |}).

(** [setMessages(updater)]: the updater gives the next list or throws. *)
Definition setMessages (updater : list chat_message -> list chat_message + exn) : C unit :=
  fun _ p =>
    match updater (messages (ui p)) with
    | inl next =>
        (Normal tt,
         {| ui := {| messages := next; inputText := inputText (ui p);
                     apiKey := apiKey (ui p); isLoading := isLoading (ui p);
                     error := error (ui p); showSettings := showSettings (ui p);
                     useLocal := useLocal (ui p) |};
            posted := posted p; broken := broken p |})
    | inr e =>
        (Normal tt,
         {| ui := ui p; posted := posted p;
            broken := match broken p with Some first => Some first | None => Some e end |})
    end.

Definition setInputText (t : string) : C unit :=
  update (fun s => {| messages := messages s; inputText := t;
                      apiKey := apiKey s; isLoading := isLoading s; error := error s;
                      showSettings := showSettings s; useLocal := useLocal s |}).

Definition setIsLoading (b : bool) : C unit :=
  update (fun s => {| messages := messages s; inputText := inputText s;
                      apiKey := apiKey s; isLoading := b; error := error s;
                      showSettings := showSettings s; useLocal := useLocal s |}).

Definition setError (e : string) : C unit :=
  update (fun s => {| messages := messages s; inputText := inputText s;
                      apiKey := apiKey s; isLoading := isLoading s; error := e;
                      showSettings := showSettings s; useLocal := useLocal s |}).

Definition apology : string :=
  "Sorry, I encountered an error. Please check the settings and try again.".

(** Lines 29-43: the guards and the updates made before the request. *)
Definition prepare (s : state) : C unit :=
  (if String.eqb (trim (inputText s)) "" then return_ else ret tt) ;;
  (if negb (useLocal s) && negb (truthy (JStr (apiKey s)))
   then setError "Please enter your Gemini API Key for cloud model." ;; return_
   else ret tt) ;;
  let userMessage := {| type := "user"; text := JStr (inputText s) |} in
  setMessages (fun prevMessages => inl (prevMessages ++ [userMessage])%list) ;;
  setInputText "" ;;
  setIsLoading true ;;
  setError "".

(** Lines 48-55: the second argument of [fetch]. *)
Definition chat_request (s : state) : fetch_init :=
  let currentInput := inputText s in
  post_json (JObj [("prompt", JStr currentInput);
                   ("useLocal", JBool (useLocal s));
                   ("apiKey", if useLocal s then JUndefined else JStr (apiKey s))]).

(** Lines 45-74: the request and what is made of its outcome. *)
Definition exchange (s : state) : C unit :=
  try_catch_finally
    (response <- fetch "/api/chat" (chat_request s) ;;
     (if negb (ok response)
      then errorData <- await (json response) ;;
           m <- member errorData "message" ;;
           msg <- to_string (or m (JStr "An error occurred on the server.")) ;;
           throw (new_Error msg)
      else ret tt) ;;
     data <- await (json response) ;;
     (* [data.response] is read when the updater runs *)
     setMessages
       (fun prevMessages =>
          if nullish data then inr (TypeError_read data "response")
          else inl (prevMessages ++ [{| type := "bot"; text := prop data "response" |}])%list))
    (fun err =>
       setError ("Failed to get response: " ++ message err) ;;
       setMessages
         (fun prevMessages =>
            inl (prevMessages ++ [{| type := "bot"; text := JStr apology |}])%list))
    (setIsLoading false).

(** Lines 28-75. *)
Definition handleSendMessage (s : state) : C unit :=
  prepare s ;; exchange s.

(** Lines 78-82; [handleSendMessage()] is not awaited, it is run here to
    its completion. *)
Definition handleKeyPress (key : string) (s : state) : C unit :=
  if String.eqb key "Enter" && negb (isLoading s) && truthy (JStr (trim (inputText s)))
  then handleSendMessage s
  else ret tt.

(** What the render of lines 246-365 makes depend on the state. *)
Definition sendDisabled (s : state) : bool :=
  isLoading s || negb (truthy (JStr (trim (inputText s)))).

Definition errorShown (s : state) : bool :=
  showSettings s && truthy (JStr (error s)).

(** The state a completed exchange leaves behind when it started from [s],
    put [answer] in the bot's bubble and set the error text to [err]. *)
Definition exchanged (s : state) (answer : value) (err : string) : state :=
  {| messages := (messages s ++ [{| type := "user"; text := JStr (inputText s) |};
                                 {| type := "bot"; text := answer |}])%list;
     inputText := "";
     apiKey := apiKey s;
     isLoading := false;
     error := err;
     showSettings := showSettings s;
     useLocal := useLocal s |}.

(** The state a completed exchange leaves behind when only the user's
    message was added. *)
Definition asked (s : state) : state :=
  {| messages := (messages s ++ [{| type := "user"; text := JStr (inputText s) |}])%list;
     inputText := "";
     apiKey := apiKey s;
     isLoading := false;
     error := "";
     showSettings := showSettings s;
     useLocal := useLocal s |}.

(** A freshly mounted page in which [t] has been typed, the model chosen
    and [key] entered. *)
Definition typed (t : string) (local : bool) (key : string) : state :=
  {| messages := []; inputText := t; apiKey := key; isLoading := false;
     error := ""; showSettings := false; useLocal := local |}.

(** The page after a handler has run on the render of [s]. *)
Definition after (net : network) (h : state -> C unit) (s : state) : page :=
  snd (h s net (showing s)).

End App.

(** * Properties *)

Example truthy_blank : truthy (JStr " ") = true.
Proof. reflexivity. Qed.

Example ToString_array :
  ToString (JArr [JStr "a"; JNull; JArr [JBool true; JStr "b"]]) = Some "a,,true,b".
Proof. reflexivity. Qed.

Example ToString_shadowed : ToString (JObj [("toString", JNull)]) = None.
Proof. reflexivity. Qed.

Example trim_blank : trim (String (ascii_of_nat 9) "  ") = "".
Proof. reflexivity. Qed.

Example trim_inner : trim "  a b " = "a b".
Proof. reflexivity. Qed.

Ltac unfold_js :=
  unfold reply, calls, serve, api_chat, llm, local_llm, cloud_llm, settle, called,
    bind, try_catch, fetch, member, to_string, res_status, res_json,
    return_, ret, throw, await, failure, success, json_reply, initial in *.

(** Run the program as far as it goes without a case distinction. *)
Ltac js := repeat (progress (unfold_js; cbn beta iota zeta; cbn [negb outbox res app])).

(** Use a fact about the environment, then go on. *)
Ltac given H := rewrite H; js.

(** ** Values *)

Lemma truthy_not_nullish v : truthy v = true -> nullish v = false.
Proof. destruct v; simpl; congruence. Qed.

Lemma opt_truthy v k : truthy (opt v k) = true -> nullish v = false /\ opt v k = prop v k.
Proof.
  unfold opt. destruct (nullish v); simpl; [discriminate | auto].
Qed.

Lemma length_append (a b : string) :
  String.length (a ++ b) = String.length a + String.length b.
Proof.
  induction a as [|c a IH]; simpl; [reflexivity | now rewrite IH].
Qed.

Lemma prefixed_differs (p m : string) : p <> "" -> p ++ m <> m.
Proof.
  intros Hp Heq. apply (f_equal String.length) in Heq.
  rewrite length_append in Heq.
  destruct p; [congruence | simpl in Heq; lia].
Qed.

(** ** The dispatcher *)

(** The user interface posts neither blank prompts nor cloud requests
    without a key, so what it posts passes both checks of the handler. *)
Lemma client_requests_pass_validation inputText local key req :
  handleSendMessage inputText local key = Some req ->
  prompt req = JStr inputText
  /\ trim inputText <> ""
  /\ truthy (prompt req) = true
  /\ (truthy (useLocal req) = false -> truthy (apiKey req) = true).
Proof.
  unfold handleSendMessage. intros H.
  destruct (String.eqb_spec (trim inputText) "") as [|Hblank]; [discriminate |].
  destruct local; simpl in H.
  - injection H as <-. simpl. repeat split; try assumption; try discriminate.
    destruct inputText; [contradiction Hblank; reflexivity | reflexivity].
  - destruct (String.eqb_spec key "") as [|Hkey]; simpl in H; [discriminate |].
    injection H as <-. simpl. repeat split; try assumption.
    + destruct inputText; [contradiction Hblank; reflexivity | reflexivity].
    + intros _. destruct (String.eqb_spec key ""); [contradiction | reflexivity].
Qed.

Lemma serve_without_prompt net req :
  truthy (prompt req) = false ->
  serve net req = (Return, {| res := failure 400 "Prompt is required."; outbox := [] |}).
Proof.
  intros Hp. unfold_js. rewrite Hp. reflexivity.
Qed.

Lemma serve_with_prompt net req :
  truthy (prompt req) = true ->
  serve net req = settle (llm req net initial).
Proof.
  intros Hp. unfold serve, api_chat, bind, try_catch, settle. rewrite Hp. cbn.
  destruct (llm req net initial) as [[text| |e] w]; reflexivity.
Qed.

(** ** The local backend *)

Section Local.

Variables (net : network) (p : value).

Lemma local_llm_refused e :
  net ollamaUrl (post_json (ollamaPayload p)) = Rejected e ->
  code_is e "ECONNREFUSED" = true ->
  local_llm p net initial
  = (Throw (new_Error refused_message), called ollamaUrl (post_json (ollamaPayload p))).
Proof.
  intros Hnet Hcode. js. given Hnet. given Hcode. reflexivity.
Qed.

Lemma local_llm_rejected e :
  net ollamaUrl (post_json (ollamaPayload p)) = Rejected e ->
  code_is e "ECONNREFUSED" = false ->
  local_llm p net initial = (Throw e, called ollamaUrl (post_json (ollamaPayload p))).
Proof.
  intros Hnet Hcode. js. given Hnet. given Hcode. reflexivity.
Qed.

Lemma local_llm_bad_status r :
  net ollamaUrl (post_json (ollamaPayload p)) = Fulfilled r ->
  ok r = false ->
  local_llm p net initial
  = (Throw (new_Error ("Ollama server returned an error: " ++ statusText r)),
     called ollamaUrl (post_json (ollamaPayload p))).
Proof.
  intros Hnet Hok. js. given Hnet. given Hok. reflexivity.
Qed.

Lemma local_llm_answer r d :
  net ollamaUrl (post_json (ollamaPayload p)) = Fulfilled r ->
  ok r = true ->
  json r = Fulfilled d ->
  nullish d = false ->
  local_llm p net initial
  = (Normal (prop d "response"), called ollamaUrl (post_json (ollamaPayload p))).
Proof.
  intros Hnet Hok Hjson Hd. js. given Hnet. given Hok. given Hjson. given Hd. reflexivity.
Qed.

Lemma local_llm_null_body r d :
  net ollamaUrl (post_json (ollamaPayload p)) = Fulfilled r ->
  ok r = true ->
  json r = Fulfilled d ->
  nullish d = true ->
  local_llm p net initial
  = (Throw (TypeError_read d "response"), called ollamaUrl (post_json (ollamaPayload p))).
Proof.
  intros Hnet Hok Hjson Hd. js. given Hnet. given Hok. given Hjson. given Hd. reflexivity.
Qed.

(** The local branch never executes a [return] and never touches [res]. *)
Lemma local_llm_outcome :
  exists o, local_llm p net initial = (o, called ollamaUrl (post_json (ollamaPayload p)))
            /\ o <> Return.
Proof.
  js. destruct (net ollamaUrl (post_json (ollamaPayload p))) as [r|e]; js.
  - destruct (ok r); js.
    + destruct (json r) as [d|e]; js.
      * destruct (nullish d); js; eexists; split; try reflexivity; discriminate.
      * destruct (code_is e "ECONNREFUSED"); js; eexists; split; try reflexivity; discriminate.
    + eexists; split; try reflexivity; discriminate.
  - destruct (code_is e "ECONNREFUSED"); js; eexists; split; try reflexivity; discriminate.
Qed.

End Local.

(** ** The cloud backend *)

Section Cloud.

Variables (net : network) (p k : value) (key : string) (r : response).
Hypothesis Hk : truthy k = true.
Hypothesis Hkey : ToString k = Some key.
Hypothesis Hnet : net (geminiApiUrl key) (post_json (geminiPayload p)) = Fulfilled r.

Lemma cloud_llm_bad_status d m :
  ok r = false ->
  json r = Fulfilled d ->
  nullish d = false ->
  ToString (or (opt (prop d "error") "message") (JStr "Gemini API request failed")) = Some m ->
  cloud_llm p k net initial
  = (Throw (new_Error m), called (geminiApiUrl key) (post_json (geminiPayload p))).
Proof.
  intros Hok Hjson Hd Hm. js. given Hk. given Hkey. given Hnet. given Hok. given Hjson.
  given Hd. given Hm. reflexivity.
Qed.

Lemma cloud_llm_no_content d :
  ok r = true ->
  json r = Fulfilled d ->
  nullish d = false ->
  truthy (first_part_text (prop d "candidates")) = false ->
  cloud_llm p k net initial
  = (Throw (new_Error "No content found in Gemini API response."),
     called (geminiApiUrl key) (post_json (geminiPayload p))).
Proof.
  intros Hok Hjson Hd Hno. js. given Hk. given Hkey. given Hnet. given Hok. given Hjson.
  given Hd. given Hno. reflexivity.
Qed.

Lemma cloud_llm_content d :
  ok r = true ->
  json r = Fulfilled d ->
  nullish d = false ->
  truthy (first_part_text (prop d "candidates")) = true ->
  cloud_llm p k net initial
  = (Normal (first_part_text (prop d "candidates")),
     called (geminiApiUrl key) (post_json (geminiPayload p))).
Proof.
  intros Hok Hjson Hd Hyes. js. given Hk. given Hkey. given Hnet. given Hok. given Hjson.
  given Hd. given Hyes.
  unfold first_part_text in *.
  set (c := prop d "candidates") in *.
  destruct (opt_truthy _ _ Hyes) as [N5 E5].
  assert (N4 : nullish (opt (opt (opt c "0") "content") "parts") = false)
    by (unfold opt at 1 in N5; destruct (nullish (opt (opt (opt c "0") "content") "parts"));
        [discriminate | reflexivity]).
  assert (N3 : nullish (opt (opt c "0") "content") = false)
    by (unfold opt at 1 in N4; destruct (nullish (opt (opt c "0") "content"));
        [discriminate | reflexivity]).
  assert (N2 : nullish (opt c "0") = false)
    by (unfold opt at 1 in N3; destruct (nullish (opt c "0")); [discriminate | reflexivity]).
  assert (N1 : nullish c = false)
    by (unfold opt at 1 in N2; destruct (nullish c); [discriminate | reflexivity]).
  assert (E1 : opt c "0" = prop c "0") by (unfold opt; now rewrite N1).
  rewrite E1 in *.
  assert (E2 : opt (prop c "0") "content" = prop (prop c "0") "content")
    by (unfold opt; now rewrite N2).
  rewrite E2 in *.
  assert (E3 : opt (prop (prop c "0") "content") "parts"
               = prop (prop (prop c "0") "content") "parts")
    by (unfold opt; now rewrite N3).
  rewrite E3 in *.
  assert (E4 : opt (prop (prop (prop c "0") "content") "parts") "0"
               = prop (prop (prop (prop c "0") "content") "parts") "0")
    by (unfold opt; now rewrite N4).
  rewrite E4 in *.
  rewrite E5.
  given N1. given N2. given N3. given N4. given N5. reflexivity.
Qed.

End Cloud.

Lemma cloud_llm_no_key net p k :
  truthy k = false ->
  cloud_llm p k net initial
  = (Return, {| res := failure 400 "API Key is required for Cloud model."; outbox := [] |}).
Proof.
  intros Hk. js. given Hk. reflexivity.
Qed.

(** The cloud branch touches [res] only when it returns early for want of
    a credential. *)
Lemma cloud_llm_outcome net p k :
  exists o w, cloud_llm p k net initial = (o, w) /\
    ((o = Return /\ w = {| res := failure 400 "API Key is required for Cloud model.";
                           outbox := [] |})
     \/ (o <> Return /\ res w = res initial)).
Proof.
  destruct (truthy k) eqn:Hk.
  2:{ rewrite (cloud_llm_no_key net p k Hk). eexists _, _. split; [reflexivity | left; auto]. }
  js. given Hk.
  destruct (ToString k) as [key|]; js.
  2:{ eexists _, _. split; [reflexivity | right; split; [discriminate | reflexivity]]. }
  destruct (net (geminiApiUrl key) (post_json (geminiPayload p))) as [r|e]; js.
  2:{ eexists _, _. split; [reflexivity | right; split; [discriminate | reflexivity]]. }
  destruct (ok r); js.
  - destruct (json r) as [d|e]; js.
    2:{ eexists _, _. split; [reflexivity | right; split; [discriminate | reflexivity]]. }
    destruct (nullish d) eqn:Hd; js.
    1:{ eexists _, _. split; [reflexivity | right; split; [discriminate | reflexivity]]. }
    destruct (truthy (first_part_text (prop d "candidates"))) eqn:Ht; js.
    2:{ eexists _, _. split; [reflexivity | right; split; [discriminate | reflexivity]]. }
    repeat match goal with
           | |- context [if nullish ?v then _ else _] => destruct (nullish v); js
           end;
      eexists _, _; (split; [reflexivity | right; split; [discriminate | reflexivity]]).
  - destruct (json r) as [d|e]; js.
    2:{ eexists _, _. split; [reflexivity | right; split; [discriminate | reflexivity]]. }
    destruct (nullish d); js.
    1:{ eexists _, _. split; [reflexivity | right; split; [discriminate | reflexivity]]. }
    destruct (ToString (or (opt (prop d "error") "message") (JStr "Gemini API request failed")));
      js; eexists _, _; (split; [reflexivity | right; split; [discriminate | reflexivity]]).
Qed.

(** ** The handler as a whole *)

(** The handler's promise never rejects: every exception raised while a
    backend is called is caught on line 100. *)
Lemma serve_never_throws net req e : fst (serve net req) <> Throw e.
Proof.
  destruct (truthy (prompt req)) eqn:Hp.
  - rewrite (serve_with_prompt net req Hp).
    destruct (llm req net initial) as [[text| |e'] w]; simpl; discriminate.
  - rewrite (serve_without_prompt net req Hp). simpl. discriminate.
Qed.

(** The four replies the handler can send. *)
Lemma reply_shapes net req :
  reply net req = failure 400 "Prompt is required."
  \/ reply net req = failure 400 "API Key is required for Cloud model."
  \/ (exists text, reply net req = success text)
  \/ (exists m, reply net req = failure 500 ("Internal server error: " ++ m)).
Proof.
  unfold reply.
  destruct (truthy (prompt req)) eqn:Hp.
  2:{ rewrite (serve_without_prompt net req Hp). left. reflexivity. }
  rewrite (serve_with_prompt net req Hp). unfold llm.
  destruct (truthy (useLocal req)).
  - destruct (local_llm_outcome net (prompt req)) as (o & Ho & Hret). rewrite Ho.
    destruct o as [text| |e]; [ | congruence | ].
    + right; right; left. exists text. reflexivity.
    + right; right; right. exists (message e). reflexivity.
  - destruct (cloud_llm_outcome net (prompt req) (apiKey req)) as (o & w & Ho & Hw).
    rewrite Ho. destruct Hw as [[-> ->] | [Hret Hres]].
    + right; left. reflexivity.
    + destruct o as [text| |e]; [ | congruence | ].
      * right; right; left. exists text. simpl. rewrite Hres. reflexivity.
      * right; right; right. exists (message e). reflexivity.
Qed.

(** Every HTTP 500 the handler sends carries the prefix. *)
Lemma server_error_is_prefixed net req :
  statusCode (reply net req) = 500 ->
  exists m, reply net req = failure 500 ("Internal server error: " ++ m).
Proof.
  intros H500.
  destruct (reply_shapes net req) as [E | [E | [[text E] | E]]];
    try (rewrite E in H500; simpl in H500; discriminate).
  exact E.
Qed.

(** * The claims *)

(** ** Validation *)




(** C10.  Prompt validation comes first: a request with a missing prompt
    that selects the cloud backend without a credential is answered
    "Prompt is required.", not with the missing-API-key message. *)
Theorem prompt_check_precedes_key_check (net : network) (req : request_body) :
  truthy (prompt req) = false ->
  truthy (useLocal req) = false ->
  truthy (apiKey req) = false ->
  reply net req = failure 400 "Prompt is required."
  /\ reply net req <> failure 400 "API Key is required for Cloud model.".
Proof.
  intros Hp _ _. unfold reply. rewrite (serve_without_prompt net req Hp).
  split; [reflexivity | discriminate].
Qed.

Lemma prompt_check_precedes_key_check_witness :
  reply refusing (ask JUndefined (JBool false) JUndefined)
  = failure 400 "Prompt is required."
  /\ reply refusing (ask JUndefined (JBool false) JUndefined)
     <> failure 400 "API Key is required for Cloud model.".
Proof.
  apply (prompt_check_precedes_key_check refusing (ask JUndefined (JBool false) JUndefined));
    reflexivity.
Defined.

(** C7, as stated, does not hold to the letter: the message the handler
    sends ends with a full stop. *)
Lemma missing_key_message_has_full_stop :
  reply refusing (ask (JStr "hi") (JBool false) JUndefined)
  = failure 400 "API Key is required for Cloud model."
  /\ reply refusing (ask (JStr "hi") (JBool false) JUndefined)
     <> failure 400 "API Key is required for Cloud model".
Proof.
  split; [reflexivity | discriminate].
Qed.

(** C7 (amended).  For every request that selects the cloud backend with
    an absent or empty credential, the handler answers HTTP 400 and calls
    no backend, whatever the prompt; when the prompt is non-empty the
    message is "API Key is required for Cloud model." *)
Theorem missing_key_is_rejected (net : network) (req : request_body) :
  truthy (useLocal req) = false ->
  truthy (apiKey req) = false ->
  statusCode (reply net req) = 400
  /\ calls net req = []
  /\ (truthy (prompt req) = true ->
      reply net req = failure 400 "API Key is required for Cloud model.").
Proof.
  intros Hl Hk. unfold reply, calls.
  destruct (truthy (prompt req)) eqn:Hp.
  - rewrite (serve_with_prompt net req Hp). unfold llm. rewrite Hl.
    rewrite (cloud_llm_no_key net (prompt req) (apiKey req) Hk).
    repeat split; reflexivity.
  - rewrite (serve_without_prompt net req Hp).
    repeat split; try reflexivity. discriminate.
Qed.

Lemma missing_key_is_rejected_witness :
  statusCode (reply refusing (ask (JStr "hi") (JBool false) (JStr ""))) = 400
  /\ calls refusing (ask (JStr "hi") (JBool false) (JStr "")) = []
  /\ (truthy (JStr "hi") = true ->
      reply refusing (ask (JStr "hi") (JBool false) (JStr ""))
      = failure 400 "API Key is required for Cloud model.").
Proof.
  apply (missing_key_is_rejected refusing (ask (JStr "hi") (JBool false) (JStr "")));
    reflexivity.
Defined.

(** ** Failures of the backend call *)

(** C2, as stated, does not hold.  The connection-refused failure, which
    the local branch itself rewords, reaches the caller with the prefix
    like any other exception. *)
Lemma classified_failure_gets_prefix :
  llm (ask (JStr "hi") (JBool true) JUndefined) refusing initial
  = (Throw (new_Error refused_message),
     called ollamaUrl (post_json (ollamaPayload (JStr "hi"))))
  /\ reply refusing (ask (JStr "hi") (JBool true) JUndefined)
     = failure 500 ("Internal server error: " ++ refused_message)
  /\ reply refusing (ask (JStr "hi") (JBool true) JUndefined)
     <> failure 500 refused_message.
Proof.
  split; [reflexivity | split; [reflexivity | discriminate]].
Qed.

(** C2 (amended).  Every exception raised while the selected backend is
    called, whether the branch worded it itself (connection refused,
    non-success status, missing field) or not, is answered with HTTP 500
    and the message "Internal server error: " followed by the underlying
    message; none reaches the caller unchanged. *)
Theorem backend_failure_is_wrapped (net : network) (req : request_body)
    (e : exn) (w : world) :
  truthy (prompt req) = true ->
  llm req net initial = (Throw e, w) ->
  reply net req = failure 500 ("Internal server error: " ++ message e)
  /\ reply net req <> failure 500 (message e).
Proof.
  intros Hp Hthrow. unfold reply.
  rewrite (serve_with_prompt net req Hp), Hthrow. simpl.
  split; [reflexivity |].
  intros Heq. injection Heq as Heq.
  exact (prefixed_differs "Internal server error: " (message e) ltac:(discriminate) Heq).
Qed.

Lemma backend_failure_is_wrapped_witness :
  reply refusing (ask (JStr "hi") (JBool true) JUndefined)
  = failure 500 ("Internal server error: " ++ refused_message)
  /\ reply refusing (ask (JStr "hi") (JBool true) JUndefined)
     <> failure 500 refused_message.
Proof.
  apply (backend_failure_is_wrapped refusing (ask (JStr "hi") (JBool true) JUndefined)
           (new_Error refused_message)
           (called ollamaUrl (post_json (ollamaPayload (JStr "hi")))));
    reflexivity.
Defined.

(** C6, as stated, does not hold: the message the caller receives is not
    the connection-refused sentence itself but that sentence behind the
    prefix of line 102. *)
Lemma refused_message_is_prefixed :
  reply refusing (ask (JStr "hi") (JBool true) JUndefined)
  = failure 500 "Internal server error: Could not connect to the local Ollama server. Please ensure it is running on http://localhost:11434."
  /\ reply refusing (ask (JStr "hi") (JBool true) JUndefined)
     <> failure 500 "Could not connect to the local Ollama server. Please ensure it is running on http://localhost:11434.".
Proof.
  split; [reflexivity | discriminate].
Qed.

(** C6 (amended).  For every request routed to the local backend where the
    connection is refused, the handler answers HTTP 500 with the message
    "Internal server error: Could not connect to the local Ollama server.
    Please ensure it is running on http://localhost:11434."; that message
    contains the address of the local endpoint, the origin of the URL the
    request was sent to. *)
Theorem local_refusal_names_the_endpoint (net : network) (req : request_body) (e : exn) :
  routed_local req ->
  net ollamaUrl (post_json (ollamaPayload (prompt req))) = Rejected e ->
  code_is e "ECONNREFUSED" = true ->
  exists msg,
    reply net req = failure 500 msg
    /\ msg = "Internal server error: Could not connect to the local Ollama server. Please ensure it is running on http://localhost:11434."
    /\ includes msg "http://localhost:11434" = true
    /\ String.prefix "http://localhost:11434" ollamaUrl = true.
Proof.
  intros [Hp Hl] Hnet Hcode. eexists. split.
  - unfold reply. rewrite (serve_with_prompt net req Hp). unfold llm. rewrite Hl.
    rewrite (local_llm_refused net (prompt req) e Hnet Hcode). reflexivity.
  - split; [reflexivity | split; reflexivity].
Qed.

Lemma local_refusal_names_the_endpoint_witness :
  exists msg,
    reply refusing (ask (JStr "hi") (JBool true) JUndefined) = failure 500 msg
    /\ msg = "Internal server error: Could not connect to the local Ollama server. Please ensure it is running on http://localhost:11434."
    /\ includes msg "http://localhost:11434" = true
    /\ String.prefix "http://localhost:11434" ollamaUrl = true.
Proof.
  apply (local_refusal_names_the_endpoint refusing (ask (JStr "hi") (JBool true) JUndefined)
           {| code := Some "ECONNREFUSED";
              message := "request to http://localhost:11434/api/generate failed, reason: connect ECONNREFUSED 127.0.0.1:11434" |}).
  - split; reflexivity.
  - reflexivity.
  - reflexivity.
Defined.

(** C3, as stated, does not hold: the service's message reaches the caller
    behind the prefix of line 102.  Nor is the error field used whenever it
    is present: an empty one is replaced by the generic text, and a body of
    [null] gives neither but the engine's TypeError text. *)
Lemma bad_key_is_prefixed :
  reply (answering 403 "Forbidden" (JObj [("error", JObj [("message", JStr "bad key")])]))
        (ask (JStr "hi") (JBool false) (JStr "secret"))
  = failure 500 "Internal server error: bad key"
  /\ reply (answering 403 "Forbidden" (JObj [("error", JObj [("message", JStr "bad key")])]))
           (ask (JStr "hi") (JBool false) (JStr "secret"))
     <> failure 500 "bad key"
  /\ reply (answering 403 "Forbidden" (JObj [("error", JObj [("message", JStr "")])]))
           (ask (JStr "hi") (JBool false) (JStr "secret"))
     = failure 500 "Internal server error: Gemini API request failed"
  /\ reply (answering 403 "Forbidden" JNull)
           (ask (JStr "hi") (JBool false) (JStr "secret"))
     = failure 500 "Internal server error: Cannot read properties of null (reading 'error')".
Proof.
  split; [reflexivity | split; [discriminate | split; reflexivity]].
Qed.

(** C3 (amended).  For every request routed to the cloud backend where the
    service answers with HTTP 403 and body [{ error: { message: "bad key" } }],
    the handler answers HTTP 500 with the message "Internal server error:
    bad key".  More generally, on a non-success status with a JSON body the
    message is "Internal server error: " followed by the service's
    structured error field [error.message] when it is present and truthy (a
    non-empty string as it is, any other truthy value as ToString renders
    it), else by "Gemini API request failed"; followed, when the body is
    [null] or the field cannot be rendered, by the engine's TypeError
    text. *)
Theorem cloud_error_status_message (net : network) (req : request_body)
    (key : string) (r : response) (d : value) :
  routed_cloud req key ->
  net (geminiApiUrl key) (post_json (geminiPayload (prompt req))) = Fulfilled r ->
  ok r = false ->
  json r = Fulfilled d ->
  (nullish d = false ->
   (forall m, opt (prop d "error") "message" = JStr m -> m <> "" ->
              reply net req = failure 500 ("Internal server error: " ++ m))
   /\ (forall t, truthy (opt (prop d "error") "message") = true ->
                 ToString (opt (prop d "error") "message") = Some t ->
                 reply net req = failure 500 ("Internal server error: " ++ t))
   /\ (truthy (opt (prop d "error") "message") = true ->
       ToString (opt (prop d "error") "message") = None ->
       reply net req
       = failure 500 "Internal server error: Cannot convert object to primitive value")
   /\ (truthy (opt (prop d "error") "message") = false ->
       reply net req = failure 500 "Internal server error: Gemini API request failed"))
  /\ (d = JNull ->
      reply net req
      = failure 500 "Internal server error: Cannot read properties of null (reading 'error')").
Proof.
  intros (Hp & Hl & Hk & Hkey) Hnet Hok Hjson.
  assert (Hserve : reply net req
                   = res (snd (settle (cloud_llm (prompt req) (apiKey req) net initial)))).
  { unfold reply. rewrite (serve_with_prompt net req Hp). unfold llm. rewrite Hl. reflexivity. }
  split.
  - intros Hd.
    assert (Hrun : forall m,
               ToString (or (opt (prop d "error") "message") (JStr "Gemini API request failed"))
               = Some m ->
               reply net req = failure 500 ("Internal server error: " ++ m)).
    { intros m Hm. rewrite Hserve.
      rewrite (cloud_llm_bad_status net (prompt req) (apiKey req) key r Hk Hkey Hnet d m
                 Hok Hjson Hd Hm).
      reflexivity. }
    split; [| split; [| split]].
    + intros m Hmsg Hne. apply Hrun. rewrite Hmsg. unfold or. simpl.
      destruct (String.eqb_spec m ""); [contradiction | reflexivity].
    + intros t Htruthy Ht. apply Hrun. unfold or. rewrite Htruthy. exact Ht.
    + intros Htruthy Hnone. rewrite Hserve.
      js. given Hk. given Hkey. given Hnet. given Hok. given Hjson. given Hd.
      unfold or. rewrite Htruthy, Hnone. reflexivity.
    + intros Hfalsy. apply (Hrun "Gemini API request failed").
      unfold or. rewrite Hfalsy. reflexivity.
  - intros ->. rewrite Hserve.
    js. given Hk. given Hkey. given Hnet. given Hok. given Hjson. reflexivity.
Qed.

Lemma cloud_error_status_message_witness :
  reply (answering 403 "Forbidden" (JObj [("error", JObj [("message", JStr "bad key")])]))
        (ask (JStr "hi") (JBool false) (JStr "secret"))
  = failure 500 ("Internal server error: " ++ "bad key").
Proof.
  refine (proj1 (proj1 (cloud_error_status_message
                   (answering 403 "Forbidden"
                      (JObj [("error", JObj [("message", JStr "bad key")])]))
                   (ask (JStr "hi") (JBool false) (JStr "secret")) "secret"
                   {| status := 403; statusText := "Forbidden";
                      json := Fulfilled (JObj [("error", JObj [("message", JStr "bad key")])]) |}
                   (JObj [("error", JObj [("message", JStr "bad key")])])
                   _ _ _ _) _) "bad key" _ _).
  - repeat split; reflexivity.
  - reflexivity.
  - reflexivity.
  - reflexivity.
  - reflexivity.
  - reflexivity.
  - discriminate.
Defined.

(** C4, as stated, does not hold: the no-content message reaches the
    caller behind the prefix of line 102; and for the body [null], in which
    the field is absent too, the message is the engine's TypeError text. *)
Lemma no_content_is_prefixed :
  reply (answering 200 "OK" (JObj [("candidates", JArr [])]))
        (ask (JStr "hi") (JBool false) (JStr "secret"))
  = failure 500 "Internal server error: No content found in Gemini API response."
  /\ reply (answering 200 "OK" (JObj [("candidates", JArr [])]))
           (ask (JStr "hi") (JBool false) (JStr "secret"))
     <> failure 500 "No content found in Gemini API response."
  /\ reply (answering 200 "OK" JNull)
           (ask (JStr "hi") (JBool false) (JStr "secret"))
     = failure 500
         "Internal server error: Cannot read properties of null (reading 'candidates')".
Proof.
  split; [reflexivity | split; [discriminate | reflexivity]].
Qed.

(** C4 (amended).  For every request routed to the cloud backend where the
    service answers with a success status and a JSON body other than [null]
    in which [candidates[0].content.parts[0].text] is absent or falsy (the
    empty string, say), for instance an empty [candidates] array, the
    handler answers HTTP 500 with the message "Internal server error: No
    content found in Gemini API response."; when the body is [null] the
    message is instead "Internal server error: Cannot read properties of
    null (reading 'candidates')". *)
Theorem cloud_missing_content (net : network) (req : request_body)
    (key : string) (r : response) (d : value) :
  routed_cloud req key ->
  net (geminiApiUrl key) (post_json (geminiPayload (prompt req))) = Fulfilled r ->
  ok r = true ->
  json r = Fulfilled d ->
  (nullish d = false ->
   truthy (first_part_text (prop d "candidates")) = false ->
   reply net req
   = failure 500 "Internal server error: No content found in Gemini API response.")
  /\ (d = JNull ->
      reply net req
      = failure 500
          "Internal server error: Cannot read properties of null (reading 'candidates')").
Proof.
  intros (Hp & Hl & Hk & Hkey) Hnet Hok Hjson.
  assert (Hserve : reply net req
                   = res (snd (settle (cloud_llm (prompt req) (apiKey req) net initial)))).
  { unfold reply. rewrite (serve_with_prompt net req Hp). unfold llm. rewrite Hl. reflexivity. }
  split.
  - intros Hd Hno. rewrite Hserve.
    rewrite (cloud_llm_no_content net (prompt req) (apiKey req) key r Hk Hkey Hnet d
               Hok Hjson Hd Hno).
    reflexivity.
  - intros ->. rewrite Hserve.
    js. given Hk. given Hkey. given Hnet. given Hok. given Hjson. reflexivity.
Qed.

Lemma cloud_missing_content_witness :
  reply (answering 200 "OK" (JObj [("candidates", JArr [])]))
        (ask (JStr "hi") (JBool false) (JStr "secret"))
  = failure 500 "Internal server error: No content found in Gemini API response.".
Proof.
  refine (proj1 (cloud_missing_content
                   (answering 200 "OK" (JObj [("candidates", JArr [])]))
                   (ask (JStr "hi") (JBool false) (JStr "secret")) "secret"
                   {| status := 200; statusText := "OK";
                      json := Fulfilled (JObj [("candidates", JArr [])]) |}
                   (JObj [("candidates", JArr [])]) _ _ _ _) _ _).
  - repeat split; reflexivity.
  - reflexivity.
  - reflexivity.
  - reflexivity.
  - reflexivity.
  - reflexivity.
Defined.

(** ** The local branch *)

(** C5.  For every request routed to the local backend where the service
    answers HTTP 200 with a body whose [response] field is the string [x],
    the handler answers HTTP 200 with [{ response: x }]: the text is relayed
    as it is. *)
Theorem local_answer_is_relayed (net : network) (req : request_body)
    (text : string) (fields : list (string * value)) (x : string) :
  routed_local req ->
  net ollamaUrl (post_json (ollamaPayload (prompt req)))
  = Fulfilled {| status := 200; statusText := text; json := Fulfilled (JObj fields) |} ->
  own fields "response" = Some (JStr x) ->
  fst (serve net req) = Normal tt /\ reply net req = success (JStr x).
Proof.
  intros [Hp Hl] Hnet Hx. unfold reply.
  rewrite (serve_with_prompt net req Hp). unfold llm. rewrite Hl.
  rewrite (local_llm_answer net (prompt req) _ (JObj fields) Hnet eq_refl eq_refl eq_refl).
  simpl. rewrite Hx. split; reflexivity.
Qed.

Lemma local_answer_is_relayed_witness :
  fst (serve (answering 200 "OK" (JObj [("response", JStr "X")]))
             (ask (JStr "hi") (JBool true) JUndefined)) = Normal tt
  /\ reply (answering 200 "OK" (JObj [("response", JStr "X")]))
           (ask (JStr "hi") (JBool true) JUndefined)
     = success (JStr "X").
Proof.
  apply (local_answer_is_relayed
           (answering 200 "OK" (JObj [("response", JStr "X")]))
           (ask (JStr "hi") (JBool true) JUndefined)
           "OK" [("response", JStr "X")] "X").
  - split; reflexivity.
  - reflexivity.
  - reflexivity.
Defined.

(** C9, as stated, does not hold.  The JSON body [null] has no [response]
    field, yet reading [ollamaData.response] on it (line 55) throws, and the
    handler answers HTTP 500. *)
Lemma null_answer_is_a_failure :
  reply (answering 200 "OK" JNull) (ask (JStr "hi") (JBool true) JUndefined)
  = failure 500 "Internal server error: Cannot read properties of null (reading 'response')"
  /\ statusCode (reply (answering 200 "OK" JNull)
                       (ask (JStr "hi") (JBool true) JUndefined)) <> 200.
Proof.
  split; [reflexivity | discriminate].
Qed.

(** C9 (amended).  The local branch does not validate a success body.  For
    every request routed to the local backend where the service answers
    HTTP 200 with a JSON body other than [null] that has no [response]
    field, the handler completes normally and answers HTTP 200 with an
    undefined [response] rather than any failure; whereas on the cloud
    branch a success body without the expected field is answered with
    HTTP 500. *)
Theorem local_body_is_not_validated (net : network) (p : value)
    (r : response) (d : value) :
  truthy p = true ->
  status r = 200 ->
  json r = Fulfilled d ->
  nullish d = false ->
  prop d "response" = JUndefined ->
  (forall l k,
      truthy l = true ->
      net ollamaUrl (post_json (ollamaPayload p)) = Fulfilled r ->
      fst (serve net (ask p l k)) = Normal tt
      /\ reply net (ask p l k) = success JUndefined)
  /\ (forall l k key,
         routed_cloud (ask p l k) key ->
         net (geminiApiUrl key) (post_json (geminiPayload p)) = Fulfilled r ->
         truthy (first_part_text (prop d "candidates")) = false ->
         statusCode (reply net (ask p l k)) = 500).
Proof.
  intros Hp Hst Hjson Hd Hnone.
  assert (Hok : ok r = true) by (unfold ok; rewrite Hst; reflexivity).
  split.
  - intros l k Hl Hnet. unfold reply.
    rewrite (serve_with_prompt net (ask p l k) Hp). unfold llm. simpl. rewrite Hl.
    rewrite (local_llm_answer net p r d Hnet Hok Hjson Hd), Hnone.
    split; reflexivity.
  - intros l k key (_ & Hl & Hk & Hkey) Hnet Hno. simpl in Hl, Hk, Hkey. unfold reply.
    rewrite (serve_with_prompt net (ask p l k) Hp). unfold llm. simpl. rewrite Hl.
    rewrite (cloud_llm_no_content net p k key r Hk Hkey Hnet d Hok Hjson Hd Hno).
    reflexivity.
Qed.

Lemma local_body_is_not_validated_witness :
  fst (serve (answering 200 "OK" (JObj [("done", JBool true)]))
             (ask (JStr "hi") (JBool true) JUndefined)) = Normal tt
  /\ reply (answering 200 "OK" (JObj [("done", JBool true)]))
           (ask (JStr "hi") (JBool true) JUndefined)
     = success JUndefined.
Proof.
  refine (proj1 (local_body_is_not_validated
                   (answering 200 "OK" (JObj [("done", JBool true)]))
                   (JStr "hi")
                   {| status := 200; statusText := "OK";
                      json := Fulfilled (JObj [("done", JBool true)]) |}
                   (JObj [("done", JBool true)]) _ _ _ _ _)
                (JBool true) JUndefined _ _); reflexivity.
Defined.

(** C8.  For every request that selects the local backend, no credential
    is required and none is transmitted: the handler never answers with
    the missing-API-key failure; when the prompt passes validation the only
    outbound call is a POST to the local endpoint whose body is
    [{ model: "gemma3:12b-it-qat", prompt: <the request's prompt>,
    stream: false }], and otherwise there is none; and the whole run is the
    same for any credential put in the place of the request's. *)
Theorem local_ignores_credential (net : network) (req : request_body) :
  truthy (useLocal req) = true ->
  reply net req <> failure 400 "API Key is required for Cloud model."
  /\ calls net req
     = (if truthy (prompt req)
        then [("http://localhost:11434/api/generate",
               {| method := "POST";
                  headers := [("Content-Type", "application/json")];
                  body := JSON_stringify
                            (JObj [("model", JStr "gemma3:12b-it-qat");
                                   ("prompt", prompt req);
                                   ("stream", JBool false)]) |})]
        else [])
  /\ (forall k, serve net (ask (prompt req) (useLocal req) k) = serve net req).
Proof.
  intros Hl. unfold reply, calls.
  destruct (truthy (prompt req)) eqn:Hp.
  - rewrite (serve_with_prompt net req Hp). unfold llm. rewrite Hl.
    destruct (local_llm_outcome net (prompt req)) as (o & Ho & Hret). rewrite Ho.
    split; [| split].
    + destruct o as [text| |e]; [discriminate | congruence | discriminate].
    + destruct o as [text| |e]; [reflexivity | congruence | reflexivity].
    + intros k.
      rewrite (serve_with_prompt net (ask (prompt req) (useLocal req) k) Hp).
      unfold llm. simpl. rewrite Hl, Ho. reflexivity.
  - rewrite (serve_without_prompt net req Hp).
    split; [discriminate | split; [reflexivity |]].
    intros k. apply (serve_without_prompt net (ask (prompt req) (useLocal req) k) Hp).
Qed.

Lemma local_ignores_credential_witness :
  serve (answering 200 "OK" (JObj [("response", JStr "X")]))
        (ask (JStr "hi") (JBool true) (JStr "secret"))
  = serve (answering 200 "OK" (JObj [("response", JStr "X")]))
          (ask (JStr "hi") (JBool true) JUndefined).
Proof.
  exact (proj2 (proj2 (local_ignores_credential
                         (answering 200 "OK" (JObj [("response", JStr "X")]))
                         (ask (JStr "hi") (JBool true) JUndefined) eq_refl))
               (JStr "secret")).
Defined.

(** * Further properties of the handler *)

(** ** What the two branches can come to *)

Lemma local_llm_normal net p v w :
  local_llm p net initial = (Normal v, w) ->
  exists r d,
    net ollamaUrl (post_json (ollamaPayload p)) = Fulfilled r
    /\ ok r = true /\ json r = Fulfilled d /\ nullish d = false
    /\ v = prop d "response".
Proof.
  js. destruct (net ollamaUrl (post_json (ollamaPayload p))) as [r|e] eqn:Hnet; js.
  - destruct (ok r) eqn:Hok; js.
    + destruct (json r) as [d|e] eqn:Hjson; js.
      * destruct (nullish d) eqn:Hd; js; intros H; [discriminate |].
        injection H as <- _. exists r, d. auto.
      * destruct (code_is e "ECONNREFUSED"); js; discriminate.
    + discriminate.
  - destruct (code_is e "ECONNREFUSED"); js; discriminate.
Qed.

Lemma cloud_llm_with_key net p k :
  truthy k = true ->
  (ToString k = None
   /\ cloud_llm p k net initial = (Throw TypeError_primitive, initial))
  \/ (exists key o,
         ToString k = Some key
         /\ o <> Return
         /\ cloud_llm p k net initial
            = (o, called (geminiApiUrl key) (post_json (geminiPayload p)))
         /\ forall v, o = Normal v ->
              exists r d,
                net (geminiApiUrl key) (post_json (geminiPayload p)) = Fulfilled r
                /\ ok r = true /\ json r = Fulfilled d /\ nullish d = false
                /\ v = first_part_text (prop d "candidates") /\ truthy v = true).
Proof.
  intros Hk.
  destruct (ToString k) as [key|] eqn:Hkey.
  2:{ left. split; [reflexivity |]. js. given Hk. given Hkey. reflexivity. }
  right. exists key.
  destruct (net (geminiApiUrl key) (post_json (geminiPayload p))) as [r|e] eqn:Hnet.
  2:{ exists (Throw e). split; [reflexivity | split; [discriminate | split]].
      - js. given Hk. given Hkey. given Hnet. reflexivity.
      - discriminate. }
  destruct (json r) as [d|e] eqn:Hjson.
  2:{ exists (Throw e). split; [reflexivity | split; [discriminate | split]].
      - js. given Hk. given Hkey. given Hnet. destruct (ok r); js; given Hjson; reflexivity.
      - discriminate. }
  destruct (nullish d) eqn:Hd.
  1:{ destruct (ok r) eqn:Hok.
      - exists (Throw (TypeError_read d "candidates")).
        split; [reflexivity | split; [discriminate | split]]; [| discriminate].
        js. given Hk. given Hkey. given Hnet. given Hok. given Hjson. given Hd. reflexivity.
      - exists (Throw (TypeError_read d "error")).
        split; [reflexivity | split; [discriminate | split]]; [| discriminate].
        js. given Hk. given Hkey. given Hnet. given Hok. given Hjson. given Hd. reflexivity. }
  destruct (ok r) eqn:Hok.
  - destruct (truthy (first_part_text (prop d "candidates"))) eqn:Ht.
    + exists (Normal (first_part_text (prop d "candidates"))).
      split; [reflexivity | split; [discriminate | split]].
      * apply (cloud_llm_content net p k key r Hk Hkey Hnet d Hok Hjson Hd Ht).
      * intros v Hv. injection Hv as <-. exists r, d. auto 10.
    + exists (Throw (new_Error "No content found in Gemini API response.")).
      split; [reflexivity | split; [discriminate | split]]; [| discriminate].
      apply (cloud_llm_no_content net p k key r Hk Hkey Hnet d Hok Hjson Hd Ht).
  - destruct (ToString (or (opt (prop d "error") "message")
                           (JStr "Gemini API request failed"))) as [m|] eqn:Hm.
    + exists (Throw (new_Error m)).
      split; [reflexivity | split; [discriminate | split]]; [| discriminate].
      apply (cloud_llm_bad_status net p k key r Hk Hkey Hnet d m Hok Hjson Hd Hm).
    + exists (Throw TypeError_primitive).
      split; [reflexivity | split; [discriminate | split]]; [| discriminate].
      js. given Hk. given Hkey. given Hnet. given Hok. given Hjson. given Hd. given Hm.
      reflexivity.
Qed.

(** ** Replies *)

(** X1.  From the prompt check on (line 23), in every run in which the
    outbound call settles: no exception escapes the handler, each one
    raised is caught on line 100; and a reply, once sent, is one of four:
    HTTP 400 "Prompt is required.", HTTP 400 "API Key is required for Cloud
    model.", HTTP 200 with a [response], or HTTP 500 with a message that
    starts with "Internal server error: ". *)
Theorem sent_replies_are_shaped (net : network) (req : request_body) :
  (forall e, fst (serve net req) <> Throw e)
  /\ (sent (reply net req) <> None ->
      reply net req = failure 400 "Prompt is required."
      \/ reply net req = failure 400 "API Key is required for Cloud model."
      \/ (exists text, reply net req = success text)
      \/ (exists m, reply net req = failure 500 ("Internal server error: " ++ m))).
Proof.
  split; [intros e; apply serve_never_throws |].
  intros _. apply reply_shapes.
Qed.

(** X2.  The handler answers HTTP 400 exactly when the prompt is missing,
    or the cloud backend is selected and the credential is missing; and a
    request answered with 400 has caused no outbound call. *)
Theorem bad_request_iff_invalid (net : network) (req : request_body) :
  (statusCode (reply net req) = 400 <->
   truthy (prompt req) = false
   \/ (truthy (useLocal req) = false /\ truthy (apiKey req) = false))
  /\ (statusCode (reply net req) = 400 -> calls net req = []).
Proof.
  unfold reply, calls.
  destruct (truthy (prompt req)) eqn:Hp.
  2:{ rewrite (serve_without_prompt net req Hp). simpl. split; [split |]; auto. }
  rewrite (serve_with_prompt net req Hp). unfold llm.
  destruct (truthy (useLocal req)) eqn:Hl.
  - destruct (local_llm_outcome net (prompt req)) as (o & Ho & Hret). rewrite Ho.
    destruct o as [text| |e]; [ | congruence | ]; simpl;
      (split; [split; [discriminate | intros [H | [H _]]; discriminate] | discriminate]).
  - destruct (truthy (apiKey req)) eqn:Hk.
    + destruct (cloud_llm_with_key net (prompt req) (apiKey req) Hk)
        as [[_ Ho] | (key & o & _ & Hret & Ho & _)]; rewrite Ho.
      * simpl. split; [split; [discriminate | intros [H | [_ H]]; discriminate] | discriminate].
      * destruct o as [text| |e]; [ | congruence | ]; simpl;
          (split; [split; [discriminate | intros [H | [_ H]]; discriminate] | discriminate]).
    + rewrite (cloud_llm_no_key net (prompt req) (apiKey req) Hk). simpl.
      split; [split |]; auto.
Qed.

(** X3.  One request causes at most one outbound call: none, or one POST
    to the Ollama URL when [useLocal] is truthy, or one POST to the Gemini
    URL when it is falsy. *)
Theorem at_most_one_call (net : network) (req : request_body) :
  calls net req = []
  \/ (truthy (useLocal req) = true
      /\ calls net req = [(ollamaUrl, post_json (ollamaPayload (prompt req)))])
  \/ (exists key,
         routed_cloud req key
         /\ calls net req = [(geminiApiUrl key, post_json (geminiPayload (prompt req)))]).
Proof.
  unfold calls.
  destruct (truthy (prompt req)) eqn:Hp.
  2:{ rewrite (serve_without_prompt net req Hp). left. reflexivity. }
  rewrite (serve_with_prompt net req Hp). unfold llm.
  destruct (truthy (useLocal req)) eqn:Hl.
  - destruct (local_llm_outcome net (prompt req)) as (o & Ho & Hret). rewrite Ho.
    right; left. split; [reflexivity |].
    destruct o as [text| |e]; [ | congruence | ]; reflexivity.
  - destruct (truthy (apiKey req)) eqn:Hk.
    + destruct (cloud_llm_with_key net (prompt req) (apiKey req) Hk)
        as [[_ Ho] | (key & o & Hkey & Hret & Ho & _)]; rewrite Ho.
      * left. reflexivity.
      * right; right. exists key. split; [repeat split; assumption |].
        destruct o as [text| |e]; [ | congruence | ]; reflexivity.
    + rewrite (cloud_llm_no_key net (prompt req) (apiKey req) Hk). left. reflexivity.
Qed.

(** X4.  For every request routed to the cloud backend the one outbound
    call is a POST to the Gemini URL with the credential appended as it is
    to the query string, and with a body that wraps the prompt as a single
    user turn and holds nothing else; this does not depend on what the
    service answers. *)
Theorem cloud_request_shape (net : network) (req : request_body) (key : string) :
  routed_cloud req key ->
  calls net req
  = [("https://generativelanguage.googleapis.com/v1beta/models/gemini-2.0-flash:generateContent?key="
        ++ key,
      {| method := "POST";
         headers := [("Content-Type", "application/json")];
         body := JSON_stringify
                   (JObj [("contents",
                           JArr [JObj [("role", JStr "user");
                                       ("parts", JArr [JObj [("text", prompt req)]])]])]) |})].
Proof.
  intros (Hp & Hl & Hk & Hkey). unfold calls.
  rewrite (serve_with_prompt net req Hp). unfold llm. rewrite Hl.
  destruct (cloud_llm_with_key net (prompt req) (apiKey req) Hk)
    as [[Hnone _] | (key' & o & Hkey' & Hret & Ho & _)]; [congruence |].
  assert (key' = key) as -> by congruence.
  rewrite Ho. destruct o as [text| |e]; [ | congruence | ]; reflexivity.
Qed.

Lemma cloud_request_shape_witness :
  calls refusing (ask (JStr "hi") (JBool false) (JStr "a&b"))
  = [("https://generativelanguage.googleapis.com/v1beta/models/gemini-2.0-flash:generateContent?key=a&b",
      post_json (geminiPayload (JStr "hi")))].
Proof.
  apply (cloud_request_shape refusing (ask (JStr "hi") (JBool false) (JStr "a&b")) "a&b").
  repeat split; reflexivity.
Defined.

(** X5.  The handler answers HTTP 200 only after exactly one outbound call
    that was answered with a 2xx status and a JSON body other than
    [null]. *)
Theorem success_needs_ok_backend (net : network) (req : request_body) :
  statusCode (reply net req) = 200 ->
  exists url init r d,
    calls net req = [(url, init)]
    /\ net url init = Fulfilled r
    /\ ok r = true
    /\ json r = Fulfilled d
    /\ nullish d = false.
Proof.
  unfold reply, calls.
  destruct (truthy (prompt req)) eqn:Hp.
  2:{ rewrite (serve_without_prompt net req Hp). simpl. discriminate. }
  rewrite (serve_with_prompt net req Hp). unfold llm.
  destruct (truthy (useLocal req)) eqn:Hl.
  - destruct (local_llm_outcome net (prompt req)) as (o & Ho & Hret). rewrite Ho.
    destruct o as [text| |e]; [ | congruence | simpl; discriminate ].
    intros _. destruct (local_llm_normal net (prompt req) text _ Ho)
      as (r & d & Hnet & Hok & Hjson & Hd & _).
    exists ollamaUrl, (post_json (ollamaPayload (prompt req))), r, d. simpl. auto.
  - destruct (truthy (apiKey req)) eqn:Hk.
    + destruct (cloud_llm_with_key net (prompt req) (apiKey req) Hk)
        as [[_ Ho] | (key & o & Hkey & Hret & Ho & Hnormal)]; rewrite Ho.
      * simpl. discriminate.
      * destruct o as [text| |e]; [ | congruence | simpl; discriminate ].
        intros _. destruct (Hnormal text eq_refl) as (r & d & Hnet & Hok & Hjson & Hd & _).
        exists (geminiApiUrl key), (post_json (geminiPayload (prompt req))), r, d.
        simpl. auto.
    + rewrite (cloud_llm_no_key net (prompt req) (apiKey req) Hk). simpl. discriminate.
Qed.

Lemma success_needs_ok_backend_witness :
  exists url init r d,
    calls (answering 200 "OK" (JObj [("response", JStr "X")]))
          (ask (JStr "hi") (JBool true) JUndefined) = [(url, init)]
    /\ answering 200 "OK" (JObj [("response", JStr "X")]) url init = Fulfilled r
    /\ ok r = true
    /\ json r = Fulfilled d
    /\ nullish d = false.
Proof.
  apply (success_needs_ok_backend (answering 200 "OK" (JObj [("response", JStr "X")]))
           (ask (JStr "hi") (JBool true) JUndefined)).
  reflexivity.
Defined.

(** X6.  For every request routed to the cloud backend where the service
    answers with a 2xx status and a body whose
    [candidates[0].content.parts[0].text] is a non-empty string, the
    handler answers HTTP 200 with that string as [response]. *)
Theorem cloud_answer_is_relayed (net : network) (req : request_body)
    (key : string) (r : response) (d : value) (t : string) :
  routed_cloud req key ->
  net (geminiApiUrl key) (post_json (geminiPayload (prompt req))) = Fulfilled r ->
  ok r = true ->
  json r = Fulfilled d ->
  nullish d = false ->
  first_part_text (prop d "candidates") = JStr t ->
  t <> "" ->
  fst (serve net req) = Normal tt /\ reply net req = success (JStr t).
Proof.
  intros (Hp & Hl & Hk & Hkey) Hnet Hok Hjson Hd Ht Hne.
  assert (Htruthy : truthy (first_part_text (prop d "candidates")) = true).
  { rewrite Ht. simpl. destruct (String.eqb_spec t ""); [contradiction | reflexivity]. }
  unfold reply. rewrite (serve_with_prompt net req Hp). unfold llm. rewrite Hl.
  rewrite (cloud_llm_content net (prompt req) (apiKey req) key r Hk Hkey Hnet d
             Hok Hjson Hd Htruthy), Ht.
  split; reflexivity.
Qed.

Lemma cloud_answer_is_relayed_witness :
  fst (serve (answering 200 "OK" (gemini_says "hello"))
             (ask (JStr "hi") (JBool false) (JStr "secret"))) = Normal tt
  /\ reply (answering 200 "OK" (gemini_says "hello"))
           (ask (JStr "hi") (JBool false) (JStr "secret"))
     = success (JStr "hello").
Proof.
  apply (cloud_answer_is_relayed (answering 200 "OK" (gemini_says "hello"))
           (ask (JStr "hi") (JBool false) (JStr "secret")) "secret"
           {| status := 200; statusText := "OK"; json := Fulfilled (gemini_says "hello") |}
           (gemini_says "hello") "hello").
  - repeat split; reflexivity.
  - reflexivity.
  - reflexivity.
  - reflexivity.
  - reflexivity.
  - reflexivity.
  - discriminate.
Defined.

(** X7.  For every request routed to the local backend where the service
    answers with a status outside 200-299, the handler answers HTTP 500
    with "Internal server error: Ollama server returned an error: "
    followed by the status text; the body of the answer is not read. *)
Theorem local_bad_status_reply (net : network) (req : request_body) (r : response) :
  routed_local req ->
  net ollamaUrl (post_json (ollamaPayload (prompt req))) = Fulfilled r ->
  ok r = false ->
  reply net req
  = failure 500 ("Internal server error: Ollama server returned an error: " ++ statusText r).
Proof.
  intros [Hp Hl] Hnet Hok. unfold reply.
  rewrite (serve_with_prompt net req Hp). unfold llm. rewrite Hl.
  rewrite (local_llm_bad_status net (prompt req) r Hnet Hok). reflexivity.
Qed.

Lemma local_bad_status_reply_witness :
  reply (answering 404 "Not Found" (JObj [("error", JStr "model not found")]))
        (ask (JStr "hi") (JBool true) JUndefined)
  = failure 500 ("Internal server error: Ollama server returned an error: " ++ "Not Found").
Proof.
  apply (local_bad_status_reply _ (ask (JStr "hi") (JBool true) JUndefined)
           {| status := 404; statusText := "Not Found";
              json := Fulfilled (JObj [("error", JStr "model not found")]) |}).
  - split; reflexivity.
  - reflexivity.
  - reflexivity.
Defined.

(** ** Failures of the transport *)

Lemma reply_cloud_throw net req key e :
  routed_cloud req key ->
  cloud_llm (prompt req) (apiKey req) net initial
  = (Throw e, called (geminiApiUrl key) (post_json (geminiPayload (prompt req)))) ->
  reply net req = failure 500 ("Internal server error: " ++ message e).
Proof.
  intros (Hp & Hl & _) Ho. unfold reply.
  rewrite (serve_with_prompt net req Hp). unfold llm. rewrite Hl, Ho. reflexivity.
Qed.

Lemma reply_local_throw net req e :
  routed_local req ->
  local_llm (prompt req) net initial
  = (Throw e, called ollamaUrl (post_json (ollamaPayload (prompt req)))) ->
  reply net req = failure 500 ("Internal server error: " ++ message e).
Proof.
  intros (Hp & Hl) Ho. unfold reply.
  rewrite (serve_with_prompt net req Hp). unfold llm. rewrite Hl, Ho. reflexivity.
Qed.

(** X8.  When [fetch] itself rejects, the handler answers HTTP 500 with
    "Internal server error: " followed by the rejection's own message: on
    the local branch unless the error code is ECONNREFUSED, on the cloud
    branch always, a refused connection included. *)
Theorem rejected_fetch_is_reported (net : network) (req : request_body) (e : exn) :
  (routed_local req
   /\ net ollamaUrl (post_json (ollamaPayload (prompt req))) = Rejected e
   /\ code_is e "ECONNREFUSED" = false)
  \/ (exists key,
         routed_cloud req key
         /\ net (geminiApiUrl key) (post_json (geminiPayload (prompt req))) = Rejected e) ->
  reply net req = failure 500 ("Internal server error: " ++ message e).
Proof.
  intros [(Hroute & Hnet & Hcode) | (key & Hroute & Hnet)].
  - apply (reply_local_throw net req e Hroute).
    apply (local_llm_rejected net (prompt req) e Hnet Hcode).
  - apply (reply_cloud_throw net req key e Hroute).
    destruct Hroute as (_ & _ & Hk & Hkey).
    js. given Hk. given Hkey. given Hnet. reflexivity.
Qed.

Lemma rejected_fetch_is_reported_witness :
  reply (fun _ _ => Rejected {| code := Some "ECONNREFUSED";
                                message := "connect ECONNREFUSED 142.250.0.1:443" |})
        (ask (JStr "hi") (JBool false) (JStr "secret"))
  = failure 500 ("Internal server error: " ++ "connect ECONNREFUSED 142.250.0.1:443").
Proof.
  apply (rejected_fetch_is_reported _ (ask (JStr "hi") (JBool false) (JStr "secret"))
           {| code := Some "ECONNREFUSED";
              message := "connect ECONNREFUSED 142.250.0.1:443" |}).
  right. exists "secret". split; [repeat split; reflexivity | reflexivity].
Defined.

(** X9.  When the backend's answer arrives but its body cannot be read as
    JSON, the handler answers HTTP 500 with "Internal server error: "
    followed by the reader's message: on the local branch for a 2xx answer
    (and an error code other than ECONNREFUSED), on the cloud branch for
    any status. *)
Theorem unreadable_body_is_reported (net : network) (req : request_body)
    (r : response) (e : exn) :
  json r = Rejected e ->
  (routed_local req
   /\ net ollamaUrl (post_json (ollamaPayload (prompt req))) = Fulfilled r
   /\ ok r = true
   /\ code_is e "ECONNREFUSED" = false)
  \/ (exists key,
         routed_cloud req key
         /\ net (geminiApiUrl key) (post_json (geminiPayload (prompt req))) = Fulfilled r) ->
  reply net req = failure 500 ("Internal server error: " ++ message e).
Proof.
  intros Hjson [(Hroute & Hnet & Hok & Hcode) | (key & Hroute & Hnet)].
  - apply (reply_local_throw net req e Hroute).
    js. given Hnet. given Hok. given Hjson. given Hcode. reflexivity.
  - apply (reply_cloud_throw net req key e Hroute).
    destruct Hroute as (_ & _ & Hk & Hkey).
    js. given Hk. given Hkey. given Hnet. destruct (ok r); js; given Hjson; reflexivity.
Qed.

Lemma unreadable_body_is_reported_witness :
  reply (fun _ _ => Fulfilled {| status := 502; statusText := "Bad Gateway";
                                 json := Rejected (new_Error "Unexpected token < in JSON at position 0") |})
        (ask (JStr "hi") (JBool false) (JStr "secret"))
  = failure 500 ("Internal server error: " ++ "Unexpected token < in JSON at position 0").
Proof.
  apply (unreadable_body_is_reported _ (ask (JStr "hi") (JBool false) (JStr "secret"))
           {| status := 502; statusText := "Bad Gateway";
              json := Rejected (new_Error "Unexpected token < in JSON at position 0") |}
           (new_Error "Unexpected token < in JSON at position 0")).
  - reflexivity.
  - right. exists "secret". split; [repeat split; reflexivity | reflexivity].
Defined.

(** X10.  A backend answer whose JSON body is [null] is a server error on
    both branches: the property read on it raises a TypeError, which the
    handler answers with HTTP 500. *)
Theorem null_body_is_server_error (net : network) (req : request_body) (r : response) :
  json r = Fulfilled JNull ->
  (routed_local req
   /\ net ollamaUrl (post_json (ollamaPayload (prompt req))) = Fulfilled r
   /\ ok r = true)
  \/ (exists key,
         routed_cloud req key
         /\ net (geminiApiUrl key) (post_json (geminiPayload (prompt req))) = Fulfilled r) ->
  exists field,
    reply net req
    = failure 500 ("Internal server error: Cannot read properties of null (reading '"
                   ++ field ++ "')").
Proof.
  intros Hjson [(Hroute & Hnet & Hok) | (key & Hroute & Hnet)].
  - exists "response".
    apply (reply_local_throw net req (TypeError_read JNull "response") Hroute).
    apply (local_llm_null_body net (prompt req) r JNull Hnet Hok Hjson eq_refl).
  - destruct (ok r) eqn:Hok.
    + exists "candidates".
      apply (reply_cloud_throw net req key (TypeError_read JNull "candidates") Hroute).
      destruct Hroute as (_ & _ & Hk & Hkey).
      js. given Hk. given Hkey. given Hnet. given Hok. given Hjson. reflexivity.
    + exists "error".
      apply (reply_cloud_throw net req key (TypeError_read JNull "error") Hroute).
      destruct Hroute as (_ & _ & Hk & Hkey).
      js. given Hk. given Hkey. given Hnet. given Hok. given Hjson. reflexivity.
Qed.

Lemma null_body_is_server_error_witness :
  exists field,
    reply (answering 200 "OK" JNull) (ask (JStr "hi") (JBool true) JUndefined)
    = failure 500 ("Internal server error: Cannot read properties of null (reading '"
                   ++ field ++ "')").
Proof.
  apply (null_body_is_server_error (answering 200 "OK" JNull)
           (ask (JStr "hi") (JBool true) JUndefined)
           {| status := 200; statusText := "OK"; json := Fulfilled JNull |}).
  - reflexivity.
  - left. split; [split; reflexivity | split; reflexivity].
Defined.

(** X11.  The local branch relays whatever is stored under [response]: for
    every request routed to the local backend where the service answers
    with any 2xx status and a JSON body other than [null], the handler
    answers HTTP 200 with that property's value, be it a string (the empty
    one included), a number, an array or an object. *)
Theorem local_relays_any_value (net : network) (req : request_body)
    (r : response) (d : value) :
  routed_local req ->
  net ollamaUrl (post_json (ollamaPayload (prompt req))) = Fulfilled r ->
  ok r = true ->
  json r = Fulfilled d ->
  nullish d = false ->
  fst (serve net req) = Normal tt /\ reply net req = success (prop d "response").
Proof.
  intros [Hp Hl] Hnet Hok Hjson Hd. unfold reply.
  rewrite (serve_with_prompt net req Hp). unfold llm. rewrite Hl.
  rewrite (local_llm_answer net (prompt req) r d Hnet Hok Hjson Hd).
  split; reflexivity.
Qed.

Lemma local_relays_any_value_witness :
  fst (serve (answering 201 "Created" (JObj [("response", JStr "")]))
             (ask (JStr "hi") (JBool true) JUndefined)) = Normal tt
  /\ reply (answering 201 "Created" (JObj [("response", JStr "")]))
           (ask (JStr "hi") (JBool true) JUndefined)
     = success (JStr "").
Proof.
  apply (local_relays_any_value (answering 201 "Created" (JObj [("response", JStr "")]))
           (ask (JStr "hi") (JBool true) JUndefined)
           {| status := 201; statusText := "Created";
              json := Fulfilled (JObj [("response", JStr "")]) |}
           (JObj [("response", JStr "")])).
  - split; reflexivity.
  - reflexivity.
  - reflexivity.
  - reflexivity.
  - reflexivity.
Defined.

(** * The chat page *)

Ltac unfold_app :=
  unfold App.after, App.handleKeyPress, App.handleSendMessage, App.prepare, App.exchange,
    App.try_catch_finally, App.bind, App.fetch, App.member, App.to_string,
    App.setMessages, App.setInputText, App.setIsLoading, App.setError, App.update,
    App.return_, App.ret, App.throw, App.await, App.showing, App.exchanged, App.asked in *.

Ltac app :=
  repeat (progress (unfold_app; cbn beta iota zeta;
                    cbn [negb andb orb app fst snd App.ui App.posted App.broken
                           App.messages App.inputText App.apiKey App.isLoading App.error
                           App.showSettings App.useLocal])).

Ltac granted H := rewrite H; app.

(** Close a goal about the page a run has produced. *)
Ltac shown := rewrite <- ?app_assoc; cbn [app]; reflexivity.

Example trim_no_break_space : trim (nbsp ++ " " ++ nbsp) = "".
Proof. reflexivity. Qed.

Lemma not_blank_eqb t : trim t <> "" -> String.eqb (trim t) "" = false.
Proof. intros H. destruct (String.eqb_spec (trim t) ""); [contradiction | reflexivity]. Qed.

Lemma not_blank_truthy t : trim t <> "" -> truthy (JStr t) = true.
Proof. intros H. destruct t; [contradiction H; reflexivity | reflexivity]. Qed.

Lemma key_present s :
  App.useLocal s = true \/ App.apiKey s <> "" ->
  negb (App.useLocal s) && negb (truthy (JStr (App.apiKey s))) = false.
Proof.
  intros [-> | H]; [reflexivity |]. simpl.
  destruct (String.eqb_spec (App.apiKey s) ""); [contradiction |].
  apply andb_false_r.
Qed.

(** The three ways a send that passes the guards can end. *)
Lemma handleSendMessage_run net s :
  trim (App.inputText s) <> "" ->
  App.useLocal s = true \/ App.apiKey s <> "" ->
  (exists r d,
      net "/api/chat" (App.chat_request s) = Fulfilled r
      /\ ok r = true /\ json r = Fulfilled d /\ nullish d = false
      /\ App.handleSendMessage s net (App.showing s)
         = (Normal tt, {| App.ui := App.exchanged s (prop d "response") "";
                          App.posted := [("/api/chat", App.chat_request s)];
                          App.broken := None |}))
  \/ (exists m,
         App.handleSendMessage s net (App.showing s)
         = (Normal tt, {| App.ui := App.exchanged s (JStr App.apology)
                                      ("Failed to get response: " ++ m);
                          App.posted := [("/api/chat", App.chat_request s)];
                          App.broken := None |}))
  \/ (exists r d,
         net "/api/chat" (App.chat_request s) = Fulfilled r
         /\ ok r = true /\ json r = Fulfilled d /\ nullish d = true
         /\ App.handleSendMessage s net (App.showing s)
            = (Normal tt, {| App.ui := App.asked s;
                             App.posted := [("/api/chat", App.chat_request s)];
                             App.broken := Some (TypeError_read d "response") |})).
Proof.
  intros Hblank Hkey. app.
  rewrite (not_blank_eqb _ Hblank). app. rewrite (key_present s Hkey). app.
  destruct (net "/api/chat" (App.chat_request s)) as [r|e] eqn:Hnet; app.
  2:{ right; left. eexists. shown. }
  destruct (ok r) eqn:Hok; app.
  - destruct (json r) as [d|e] eqn:Hjson; app.
    2:{ right; left. eexists. shown. }
    destruct (nullish d) eqn:Hd; app.
    + right; right. exists r, d. repeat split; try reflexivity; assumption.
    + left. exists r, d. repeat split; try assumption. shown.
  - destruct (json r) as [d|e] eqn:Hjson; app.
    2:{ right; left. eexists. shown. }
    destruct (nullish d) eqn:Hd; app.
    1:{ right; left. eexists. shown. }
    destruct (ToString (or (prop d "message") (JStr "An error occurred on the server.")));
      app; right; left; eexists; shown.
Qed.

(** ** The guards of [handleSendMessage] *)

(** X12.  Blank input is ignored: when the typed text trims to the empty
    string (spaces, tabs, no-break spaces and the like), neither the send
    handler nor any key press posts a request or changes the page. *)
Theorem blank_input_is_ignored (net : network) (s : App.state) :
  trim (App.inputText s) = "" ->
  App.after net App.handleSendMessage s = App.showing s
  /\ forall key, App.after net (App.handleKeyPress key) s = App.showing s.
Proof.
  intros Hblank. split.
  - app. granted Hblank. reflexivity.
  - intros key. app. granted Hblank. rewrite andb_false_r. reflexivity.
Qed.

Lemma blank_input_is_ignored_witness :
  App.after refusing App.handleSendMessage (App.typed (" " ++ nbsp) true "")
  = App.showing (App.typed (" " ++ nbsp) true "")
  /\ forall key, App.after refusing (App.handleKeyPress key) (App.typed (" " ++ nbsp) true "")
                 = App.showing (App.typed (" " ++ nbsp) true "").
Proof.
  apply (blank_input_is_ignored refusing (App.typed (" " ++ nbsp) true "")). reflexivity.
Defined.

(** X13.  When the typed text is not blank, the cloud model is selected
    and no API key is entered, a send posts nothing and changes nothing but
    the error text, which becomes "Please enter your Gemini API Key for
    cloud model."; the typed text stays in the input field. *)
Theorem cloud_without_key_is_held_back (net : network) (s : App.state) :
  trim (App.inputText s) <> "" ->
  App.useLocal s = false ->
  App.apiKey s = "" ->
  App.after net App.handleSendMessage s
  = {| App.ui := {| App.messages := App.messages s;
                    App.inputText := App.inputText s;
                    App.apiKey := App.apiKey s;
                    App.isLoading := App.isLoading s;
                    App.error := "Please enter your Gemini API Key for cloud model.";
                    App.showSettings := App.showSettings s;
                    App.useLocal := App.useLocal s |};
       App.posted := [];
       App.broken := None |}.
Proof.
  intros Hblank Hl Hk. app. rewrite (not_blank_eqb _ Hblank). app.
  rewrite Hl, Hk. cbn [truthy String.eqb]. app. rewrite ?Hl, ?Hk. reflexivity.
Qed.

Lemma cloud_without_key_is_held_back_witness :
  App.after refusing App.handleSendMessage (App.typed "hi" false "")
  = {| App.ui := {| App.messages := []; App.inputText := "hi"; App.apiKey := "";
                    App.isLoading := false;
                    App.error := "Please enter your Gemini API Key for cloud model.";
                    App.showSettings := false; App.useLocal := false |};
       App.posted := [];
       App.broken := None |}.
Proof.
  apply (cloud_without_key_is_held_back refusing (App.typed "hi" false ""));
    [discriminate | reflexivity | reflexivity].
Defined.

(** ** A send that passes the guards *)





(** X16.  An answer with a status outside 200-299 and a JSON body other
    than [null] appends the user's text and the apology; the error text is
    "Failed to get response: " followed by the body's [message] when that
    is a non-empty string, and by "An error occurred on the server." when
    it is missing or falsy. *)
Theorem error_answer_is_shown (net : network) (s : App.state) (r : response) (d : value) :
  trim (App.inputText s) <> "" ->
  App.useLocal s = true \/ App.apiKey s <> "" ->
  net "/api/chat" (App.chat_request s) = Fulfilled r ->
  ok r = false ->
  json r = Fulfilled d ->
  nullish d = false ->
  (forall m, prop d "message" = JStr m -> m <> "" ->
             App.after net App.handleSendMessage s
             = {| App.ui := App.exchanged s (JStr App.apology)
                              ("Failed to get response: " ++ m);
                  App.posted := [("/api/chat", App.chat_request s)];
                  App.broken := None |})
  /\ (truthy (prop d "message") = false ->
      App.after net App.handleSendMessage s
      = {| App.ui := App.exchanged s (JStr App.apology)
                       "Failed to get response: An error occurred on the server.";
           App.posted := [("/api/chat", App.chat_request s)];
           App.broken := None |}).
Proof.
  intros Hblank Hkey Hnet Hok Hjson Hd.
  assert (Hrun : forall m,
             ToString (or (prop d "message") (JStr "An error occurred on the server."))
             = Some m ->
             App.after net App.handleSendMessage s
             = {| App.ui := App.exchanged s (JStr App.apology)
                              ("Failed to get response: " ++ m);
                  App.posted := [("/api/chat", App.chat_request s)];
                  App.broken := None |}).
  { intros m Hm. app.
    rewrite (not_blank_eqb _ Hblank). app. rewrite (key_present s Hkey). app.
    granted Hnet. granted Hok. granted Hjson. granted Hd. granted Hm. shown. }
  split.
  - intros m Hmsg Hne. apply Hrun. rewrite Hmsg. unfold or. simpl.
    destruct (String.eqb_spec m ""); [contradiction | reflexivity].
  - intros Hfalsy. apply (Hrun "An error occurred on the server.").
    unfold or. rewrite Hfalsy. reflexivity.
Qed.

Lemma error_answer_is_shown_witness :
  App.after (answering 500 "Internal Server Error"
               (JObj [("message", JStr "Internal server error: bad key")]))
    App.handleSendMessage (App.typed "hi" false "secret")
  = {| App.ui := App.exchanged (App.typed "hi" false "secret") (JStr App.apology)
                   ("Failed to get response: " ++ "Internal server error: bad key");
       App.posted := [("/api/chat", App.chat_request (App.typed "hi" false "secret"))];
       App.broken := None |}.
Proof.
  refine (proj1 (error_answer_is_shown
                   (answering 500 "Internal Server Error"
                      (JObj [("message", JStr "Internal server error: bad key")]))
                   (App.typed "hi" false "secret")
                   {| status := 500; statusText := "Internal Server Error";
                      json := Fulfilled
                                (JObj [("message", JStr "Internal server error: bad key")]) |}
                   (JObj [("message", JStr "Internal server error: bad key")])
                   _ _ _ _ _ _) "Internal server error: bad key" _ _).
  - discriminate.
  - right. discriminate.
  - reflexivity.
  - reflexivity.
  - reflexivity.
  - reflexivity.
  - reflexivity.
  - discriminate.
Defined.

(** X17.  When the request itself fails (the server cannot be reached),
    the user's text and the apology are appended and the error text is
    "Failed to get response: " followed by the failure's message. *)
Theorem failed_fetch_is_shown (net : network) (s : App.state) (e : exn) :
  trim (App.inputText s) <> "" ->
  App.useLocal s = true \/ App.apiKey s <> "" ->
  net "/api/chat" (App.chat_request s) = Rejected e ->
  App.after net App.handleSendMessage s
  = {| App.ui := App.exchanged s (JStr App.apology)
                   ("Failed to get response: " ++ message e);
       App.posted := [("/api/chat", App.chat_request s)];
       App.broken := None |}.
Proof.
  intros Hblank Hkey Hnet. app.
  rewrite (not_blank_eqb _ Hblank). app. rewrite (key_present s Hkey). app.
  granted Hnet. shown.
Qed.

Lemma failed_fetch_is_shown_witness :
  App.after (fun _ _ => Rejected (new_Error "Failed to fetch"))
    App.handleSendMessage (App.typed "hi" true "")
  = {| App.ui := App.exchanged (App.typed "hi" true "") (JStr App.apology)
                   ("Failed to get response: " ++ "Failed to fetch");
       App.posted := [("/api/chat", App.chat_request (App.typed "hi" true ""))];
       App.broken := None |}.
Proof.
  apply (failed_fetch_is_shown (fun _ _ => Rejected (new_Error "Failed to fetch"))
           (App.typed "hi" true "") (new_Error "Failed to fetch"));
    [discriminate | left; reflexivity | reflexivity].
Defined.

(** X25.  A 2xx answer whose JSON body is [null] yields neither a bot
    message nor the apology nor an error text: [data.response] is read
    inside the state updater, which runs outside the try statement, so its
    TypeError is not caught by the handler. *)
Theorem null_answer_breaks_render (net : network) (s : App.state) (r : response) :
  trim (App.inputText s) <> "" ->
  App.useLocal s = true \/ App.apiKey s <> "" ->
  net "/api/chat" (App.chat_request s) = Fulfilled r ->
  ok r = true ->
  json r = Fulfilled JNull ->
  App.handleSendMessage s net (App.showing s)
  = (Normal tt,
     {| App.ui := App.asked s;
        App.posted := [("/api/chat", App.chat_request s)];
        App.broken := Some (TypeError_read JNull "response") |}).
Proof.
  intros Hblank Hkey Hnet Hok Hjson. app.
  rewrite (not_blank_eqb _ Hblank). app. rewrite (key_present s Hkey). app.
  granted Hnet. granted Hok. granted Hjson. cbn [nullish]. app. reflexivity.
Qed.

Lemma null_answer_breaks_render_witness :
  App.handleSendMessage (App.typed "hi" true "") (answering 200 "OK" JNull)
    (App.showing (App.typed "hi" true ""))
  = (Normal tt,
     {| App.ui := App.asked (App.typed "hi" true "");
        App.posted := [("/api/chat", App.chat_request (App.typed "hi" true ""))];
        App.broken := Some (TypeError_read JNull "response") |}).
Proof.
  apply (null_answer_breaks_render (answering 200 "OK" JNull) (App.typed "hi" true "")
           {| status := 200; statusText := "OK"; json := Fulfilled JNull |});
    [discriminate | left; reflexivity | reflexivity | reflexivity | reflexivity].
Defined.

(** ** While a request is pending; what a send never touches *)

(** X18.  Once the guards are passed and before the request is made, the
    page has [isLoading] set and the input field empty, so that the send
    button is disabled and a key press, Enter included, starts no second
    send. *)
Theorem pending_send_blocks_enter (net : network) (s : App.state) (p : App.page) :
  App.prepare s net (App.showing s) = (Normal tt, p) ->
  App.isLoading (App.ui p) = true
  /\ App.inputText (App.ui p) = ""
  /\ App.sendDisabled (App.ui p) = true
  /\ forall net' key,
       App.after net' (App.handleKeyPress key) (App.ui p) = App.showing (App.ui p).
Proof.
  app.
  destruct (String.eqb (trim (App.inputText s)) ""); app; [discriminate |].
  destruct (negb (App.useLocal s) && negb (truthy (JStr (App.apiKey s)))); app;
    [discriminate |].
  intros H. injection H as <-. app.
  split; [reflexivity | split; [reflexivity | split; [reflexivity |]]].
  intros net' key. rewrite andb_false_r. reflexivity.
Qed.

Lemma pending_send_blocks_enter_witness :
  App.isLoading (App.ui (snd (App.prepare (App.typed "hi" true "") refusing
                                (App.showing (App.typed "hi" true ""))))) = true
  /\ App.inputText (App.ui (snd (App.prepare (App.typed "hi" true "") refusing
                                   (App.showing (App.typed "hi" true ""))))) = ""
  /\ App.sendDisabled (App.ui (snd (App.prepare (App.typed "hi" true "") refusing
                                      (App.showing (App.typed "hi" true ""))))) = true
  /\ forall net' key,
       App.after net' (App.handleKeyPress key)
         (App.ui (snd (App.prepare (App.typed "hi" true "") refusing
                         (App.showing (App.typed "hi" true "")))))
       = App.showing (App.ui (snd (App.prepare (App.typed "hi" true "") refusing
                                     (App.showing (App.typed "hi" true ""))))).
Proof.
  apply (pending_send_blocks_enter refusing (App.typed "hi" true "")). reflexivity.
Defined.

(** X19.  A send never opens or closes the settings panel, and the error
    text is rendered only inside that panel: with the panel closed no
    error text is shown after a send, whether it was held back, answered or
    failed. *)
Theorem error_hidden_when_settings_closed (net : network) (s : App.state) :
  App.showSettings s = false ->
  App.showSettings (App.ui (App.after net App.handleSendMessage s)) = false
  /\ App.errorShown (App.ui (App.after net App.handleSendMessage s)) = false.
Proof.
  intros Hclosed.
  assert (Hsame : App.showSettings (App.ui (App.after net App.handleSendMessage s)) = false).
  { destruct (String.eqb_spec (trim (App.inputText s)) "") as [Hblank | Hblank].
    - app. granted Hblank. exact Hclosed.
    - destruct (negb (App.useLocal s) && negb (truthy (JStr (App.apiKey s)))) eqn:Hguard.
      + app. rewrite (not_blank_eqb _ Hblank). app. granted Hguard. exact Hclosed.
      + assert (Hkey : App.useLocal s = true \/ App.apiKey s <> "").
        { destruct (App.useLocal s); [left; reflexivity | right].
          intros Hk. rewrite Hk in Hguard. discriminate. }
        unfold App.after.
        destruct (handleSendMessage_run net s Hblank Hkey)
          as [(r & d & _ & _ & _ & _ & Hrun) | [(m & Hrun) | (r & d & _ & _ & _ & _ & Hrun)]];
          rewrite Hrun; exact Hclosed. }
  split; [exact Hsame |]. unfold App.errorShown. rewrite Hsame. reflexivity.
Qed.

Lemma error_hidden_when_settings_closed_witness :
  App.showSettings (App.ui (App.after refusing App.handleSendMessage
                              (App.typed "hi" false ""))) = false
  /\ App.errorShown (App.ui (App.after refusing App.handleSendMessage
                               (App.typed "hi" false ""))) = false.
Proof.
  apply (error_hidden_when_settings_closed refusing (App.typed "hi" false "")). reflexivity.
Defined.

(** * The page and the handler together *)

(** X20.  What the handler reads from a request the page has posted is
    the text as typed, the model switch as a boolean, and the API key only
    when the cloud model is selected: with the local model selected the
    posted JSON has no [apiKey] property at all, whatever key was entered. *)
Theorem key_stays_in_browser (s : App.state) :
  received (App.chat_request s)
  = ask (JStr (App.inputText s)) (JBool (App.useLocal s))
        (if App.useLocal s then JUndefined else JStr (App.apiKey s))
  /\ (App.useLocal s = true ->
      JSON_parse (body (App.chat_request s))
      = JObj [("prompt", JStr (App.inputText s)); ("useLocal", JBool true)]).
Proof.
  split.
  - unfold received, App.chat_request. destruct (App.useLocal s); reflexivity.
  - intros Hl. unfold App.chat_request. rewrite Hl. reflexivity.
Qed.

Lemma valid_request_is_not_refused net req :
  truthy (prompt req) = true ->
  truthy (useLocal req) = true \/ truthy (apiKey req) = true ->
  statusCode (reply net req) <> 400.
Proof.
  intros Hp Hkey. unfold reply. rewrite (serve_with_prompt net req Hp). unfold llm.
  destruct (truthy (useLocal req)) eqn:Hl.
  - destruct (local_llm_outcome net (prompt req)) as (o & Ho & Hret). rewrite Ho.
    destruct o as [text| |e]; [ | congruence | ]; simpl; discriminate.
  - destruct Hkey as [Hkey | Hk]; [discriminate |].
    destruct (cloud_llm_with_key net (prompt req) (apiKey req) Hk)
      as [[_ Ho] | (key & o & _ & Hret & Ho & _)]; rewrite Ho.
    + simpl. discriminate.
    + destruct o as [text| |e]; [ | congruence | ]; simpl; discriminate.
Qed.

(** X21.  The page's guards imply the handler's: a request the page posts
    is never answered with HTTP 400, whatever the backends do. *)
Theorem page_requests_pass_validation (net : network) (s : App.state) :
  trim (App.inputText s) <> "" ->
  App.useLocal s = true \/ App.apiKey s <> "" ->
  statusCode (reply net (received (App.chat_request s))) <> 400.
Proof.
  intros Hblank Hkey.
  apply valid_request_is_not_refused.
  - unfold received, App.chat_request. destruct (App.useLocal s); simpl;
      apply (not_blank_truthy _ Hblank).
  - unfold received, App.chat_request. destruct Hkey as [Hl | Hk].
    + rewrite Hl. left. reflexivity.
    + destruct (App.useLocal s); [left; reflexivity | right]. simpl.
      destruct (String.eqb_spec (App.apiKey s) ""); [contradiction | reflexivity].
Qed.

Lemma page_requests_pass_validation_witness :
  statusCode (reply refusing (received (App.chat_request (App.typed " hi " false "k")))) <> 400.
Proof.
  apply (page_requests_pass_validation refusing (App.typed " hi " false "k"));
    [discriminate | right; discriminate].
Defined.

Lemma received_local s :
  App.useLocal s = true ->
  received (App.chat_request s) = ask (JStr (App.inputText s)) (JBool true) JUndefined.
Proof.
  intros Hl. unfold received, App.chat_request. rewrite Hl. reflexivity.
Qed.

Lemma carried_status r rep : carries r rep -> status r = statusCode rep.
Proof. intros [H _]. exact H. Qed.

Lemma carried_body r c b :
  carries r (json_reply c b) -> json r = Fulfilled (revive b).
Proof.
  intros (_ & b' & Hsent & Hjson). simpl in Hsent. injection Hsent as <-. exact Hjson.
Qed.

(** X22.  A local chat, end to end.  The page has the local model selected
    and a non-blank text typed; its request reaches the handler, whose
    reply reaches the page; Ollama answers with a 2xx status and a body
    whose [response] is the string [x].  Then the page shows the user's
    text followed by a bot message with exactly [x], and no error. *)
Theorem local_chat_end_to_end (front net : network) (s : App.state)
    (r ro : response) (fields : list (string * value)) (x : string) :
  trim (App.inputText s) <> "" ->
  App.useLocal s = true ->
  front "/api/chat" (App.chat_request s) = Fulfilled r ->
  carries r (reply net (received (App.chat_request s))) ->
  net ollamaUrl (post_json (ollamaPayload (JStr (App.inputText s)))) = Fulfilled ro ->
  ok ro = true ->
  json ro = Fulfilled (JObj fields) ->
  own fields "response" = Some (JStr x) ->
  App.after front App.handleSendMessage s
  = {| App.ui := App.exchanged s (JStr x) "";
       App.posted := [("/api/chat", App.chat_request s)];
       App.broken := None |}.
Proof.
  intros Hblank Hl Hfront Hcarry Hnet Hok Hjson Hx.
  rewrite (received_local s Hl) in Hcarry.
  assert (Hreply : reply net (ask (JStr (App.inputText s)) (JBool true) JUndefined)
                   = success (JStr x)).
  { unfold reply. rewrite serve_with_prompt by (simpl; apply (not_blank_truthy _ Hblank)).
    unfold llm. simpl.
    rewrite (local_llm_answer net _ ro (JObj fields) Hnet Hok Hjson eq_refl).
    simpl. rewrite Hx. reflexivity. }
  rewrite Hreply in Hcarry.
  assert (Hr : ok r = true)
    by (unfold ok; rewrite (carried_status _ _ Hcarry); reflexivity).
  assert (Hbody : json r = Fulfilled (JObj [("response", JStr x)]))
    by (apply (carried_body r 200 _ Hcarry)).
  app. rewrite (not_blank_eqb _ Hblank). app.
  rewrite (key_present s (or_introl Hl)). app.
  granted Hfront. granted Hr. granted Hbody. cbn [nullish prop own String.eqb Ascii.eqb Bool.eqb].
  app. shown.
Qed.

Lemma local_chat_end_to_end_witness :
  App.after (answering 200 "OK" (JObj [("response", JStr "X")]))
    App.handleSendMessage (App.typed "hi" true "")
  = {| App.ui := App.exchanged (App.typed "hi" true "") (JStr "X") "";
       App.posted := [("/api/chat", App.chat_request (App.typed "hi" true ""))];
       App.broken := None |}.
Proof.
  apply (local_chat_end_to_end
           (answering 200 "OK" (JObj [("response", JStr "X")]))
           (answering 200 "OK" (JObj [("response", JStr "X")]))
           (App.typed "hi" true "")
           {| status := 200; statusText := "OK";
              json := Fulfilled (JObj [("response", JStr "X")]) |}
           {| status := 200; statusText := "OK";
              json := Fulfilled (JObj [("response", JStr "X")]) |}
           [("response", JStr "X")] "X").
  - discriminate.
  - reflexivity.
  - reflexivity.
  - split; [reflexivity |]. eexists. split; reflexivity.
  - reflexivity.
  - reflexivity.
  - reflexivity.
  - reflexivity.
Defined.

(** X23.  A server error, end to end.  Whenever the handler answers a
    request of the page with HTTP 500 and that reply reaches the page, its
    message is "Internal server error: " followed by some text [m], and the
    page then shows the user's text and the apology, with the error text
    "Failed to get response: Internal server error: " followed by [m]. *)
Theorem server_error_end_to_end (front net : network) (s : App.state) (r : response) :
  trim (App.inputText s) <> "" ->
  App.useLocal s = true \/ App.apiKey s <> "" ->
  front "/api/chat" (App.chat_request s) = Fulfilled r ->
  carries r (reply net (received (App.chat_request s))) ->
  statusCode (reply net (received (App.chat_request s))) = 500 ->
  exists m,
    reply net (received (App.chat_request s))
    = failure 500 ("Internal server error: " ++ m)
    /\ App.after front App.handleSendMessage s
       = {| App.ui := App.exchanged s (JStr App.apology)
                        ("Failed to get response: Internal server error: " ++ m);
            App.posted := [("/api/chat", App.chat_request s)];
            App.broken := None |}.
Proof.
  intros Hblank Hkey Hfront Hcarry H500.
  destruct (server_error_is_prefixed net _ H500) as [m Hreply].
  exists m. split; [exact Hreply |].
  rewrite Hreply in Hcarry.
  assert (Hr : ok r = false)
    by (unfold ok; rewrite (carried_status _ _ Hcarry); reflexivity).
  assert (Hbody : json r
                  = Fulfilled (JObj [("message", JStr ("Internal server error: " ++ m))]))
    by (apply (carried_body r 500 _ Hcarry)).
  app. rewrite (not_blank_eqb _ Hblank). app. rewrite (key_present s Hkey). app.
  granted Hfront. granted Hr. granted Hbody.
  unfold or. simpl. shown.
Qed.

Lemma server_error_end_to_end_witness :
  exists m,
    reply refusing (received (App.chat_request (App.typed "hi" true "")))
    = failure 500 ("Internal server error: " ++ m)
    /\ App.after (answering 500 "Internal Server Error"
                    (JObj [("message",
                            JStr ("Internal server error: " ++ refused_message))]))
         App.handleSendMessage (App.typed "hi" true "")
       = {| App.ui := App.exchanged (App.typed "hi" true "") (JStr App.apology)
                        ("Failed to get response: Internal server error: " ++ m);
            App.posted := [("/api/chat", App.chat_request (App.typed "hi" true ""))];
            App.broken := None |}.
Proof.
  apply (server_error_end_to_end
           (answering 500 "Internal Server Error"
              (JObj [("message", JStr ("Internal server error: " ++ refused_message))]))
           refusing (App.typed "hi" true "")
           {| status := 500; statusText := "Internal Server Error";
              json := Fulfilled
                        (JObj [("message",
                                JStr ("Internal server error: " ++ refused_message))]) |}).
  - discriminate.
  - left. reflexivity.
  - reflexivity.
  - split; [reflexivity |]. eexists. split; reflexivity.
  - reflexivity.
Defined.

(** X24.  A missing answer, end to end.  When Ollama answers with a 2xx
    status and a JSON body other than [null] that has no [response]
    property, the handler's reply loses its undefined [response] on the
    way, and the page shows the user's text and a bot message without text,
    and no error. *)
Theorem missing_answer_end_to_end (front net : network) (s : App.state)
    (r ro : response) (d : value) :
  trim (App.inputText s) <> "" ->
  App.useLocal s = true ->
  front "/api/chat" (App.chat_request s) = Fulfilled r ->
  carries r (reply net (received (App.chat_request s))) ->
  net ollamaUrl (post_json (ollamaPayload (JStr (App.inputText s)))) = Fulfilled ro ->
  ok ro = true ->
  json ro = Fulfilled d ->
  nullish d = false ->
  prop d "response" = JUndefined ->
  json r = Fulfilled (JObj [])
  /\ App.after front App.handleSendMessage s
     = {| App.ui := App.exchanged s JUndefined "";
          App.posted := [("/api/chat", App.chat_request s)];
          App.broken := None |}.
Proof.
  intros Hblank Hl Hfront Hcarry Hnet Hok Hjson Hd Hnone.
  rewrite (received_local s Hl) in Hcarry.
  assert (Hreply : reply net (ask (JStr (App.inputText s)) (JBool true) JUndefined)
                   = success JUndefined).
  { unfold reply. rewrite serve_with_prompt by (simpl; apply (not_blank_truthy _ Hblank)).
    unfold llm. simpl.
    rewrite (local_llm_answer net _ ro d Hnet Hok Hjson Hd), Hnone. reflexivity. }
  rewrite Hreply in Hcarry.
  assert (Hr : ok r = true)
    by (unfold ok; rewrite (carried_status _ _ Hcarry); reflexivity).
  assert (Hbody : json r = Fulfilled (JObj []))
    by (apply (carried_body r 200 _ Hcarry)).
  split; [exact Hbody |].
  app. rewrite (not_blank_eqb _ Hblank). app.
  rewrite (key_present s (or_introl Hl)). app.
  granted Hfront. granted Hr. granted Hbody. cbn [nullish prop own]. app. shown.
Qed.

Lemma missing_answer_end_to_end_witness :
  json {| status := 200; statusText := "OK"; json := Fulfilled (JObj []) |}
  = Fulfilled (JObj [])
  /\ App.after (answering 200 "OK" (JObj []))
       App.handleSendMessage (App.typed "hi" true "")
     = {| App.ui := App.exchanged (App.typed "hi" true "") JUndefined "";
          App.posted := [("/api/chat", App.chat_request (App.typed "hi" true ""))];
          App.broken := None |}.
Proof.
  apply (missing_answer_end_to_end
           (answering 200 "OK" (JObj []))
           (answering 200 "OK" (JObj [("done", JBool true)]))
           (App.typed "hi" true "")
           {| status := 200; statusText := "OK"; json := Fulfilled (JObj []) |}
           {| status := 200; statusText := "OK";
              json := Fulfilled (JObj [("done", JBool true)]) |}
           (JObj [("done", JBool true)])).
  - discriminate.
  - reflexivity.
  - reflexivity.
  - split; [reflexivity |]. eexists. split; reflexivity.
  - reflexivity.
  - reflexivity.
  - reflexivity.
  - reflexivity.
  - reflexivity.
Defined.
